(** * A shallow embedding of the OpenRouter inference statistics scraper

    The development embeds the extraction and reconciliation core of
    [src/src/scraper.py], [src/src/api.py] and [src/src/calculator.py]:
    the window sum [sum_daily_window], the revenue computation
    [calculate_revenue] with its price lookup, the price table built by
    [fetch_model_pricing], and the two regular-expression extractors
    [scrape_rankings_history] and [_extract_daily_data]; further, the
    token-count parser [parse_token_count], the HTML activity fallback
    [_scrape_model_activity_html], the request loops
    [scrape_all_model_activities] and [scrape_all_model_daily_data], and
    the label and number formatters of [src/src/readme_gen.py] and
    [_format_tokens].

    Modelling conventions.
    - Python [int] is [Z]; token counts are [Z].
    - Python [float] prices and revenues are exact rationals [Q]; Python's
      [round(x, n)] rounds the exact value of [x] half-to-even, which is
      what [py_round] does on the rational.
    - Python [dict] is an association list [list (string * V)] with the
      dictionary's insertion order; [dict_set] updates an existing key in
      place and appends a new one, as assignment to a Python dict does.
    - Page text is a [string] of characters.  A double quote is written
      [dq] and a backslash [bs] below.  For [str.strip()] and [\s] a
      character is read as the Latin-1 code point of its byte. *)

From Stdlib Require Import ZArith QArith List String Ascii Bool Lia.
From Stdlib Require Import Sorting.Sorted Sorting.Permutation QArith.Qround.
Import ListNotations.

Open Scope string_scope.
Open Scope list_scope.
Open Scope Z_scope.

(** ** Python dictionaries *)

Module Dict.

Definition t (V : Type) := list (string * V).

Fixpoint get {V} (d : t V) (k : string) : option V :=
  match d with
  | [] => None
  | (k', v) :: r => if String.eqb k k' then Some v else get r k
  end.

(** [d[k] = v] *)
Fixpoint set {V} (d : t V) (k : string) (v : V) : t V :=
  match d with
  | [] => [(k, v)]
  | (k', v') :: r => if String.eqb k k' then (k', v) :: r else (k', v') :: set r k v
  end.

(** [d.get(k, default)] *)
Definition get_default {V} (d : t V) (k : string) (default : V) : V :=
  match get d k with Some v => v | None => default end.

Definition mem {V} (d : t V) (k : string) : bool :=
  match get d k with Some _ => true | None => false end.

End Dict.

(** ** Python's stable sort with a key

    [precedes y x] holds when [y] must come strictly before [x]; a stable
    sort keeps the original order of elements that do not precede each
    other, which insertion from the right does. *)
Section StableSort.
Context {A : Type} (precedes : A -> A -> bool).

Fixpoint insert_stable (x : A) (l : list A) : list A :=
  match l with
  | [] => [x]
  | y :: r => if precedes y x then y :: insert_stable x r else x :: y :: r
  end.

Fixpoint sort_stable (l : list A) : list A :=
  match l with
  | [] => []
  | x :: r => insert_stable x (sort_stable r)
  end.

End StableSort.

(** The sum of a list of Python ints. *)
Definition sum_Z (l : list Z) : Z := fold_right Z.add 0 l.

(** ** Records of per-day analytics and of activity windows *)

(** One value of the dict returned by [_extract_daily_data]:
    [{"prompt", "completion", "reasoning", "cached", "count"}]. *)
Module Daily.
Record t := mk {
  prompt : Z;
  completion : Z;
  reasoning : Z;
  cached : Z;
  count : Z;
}.
Definition zero : t := mk 0 0 0 0 0.
End Daily.

(** The activity dict of [sum_daily_window] and [scrape_model_activity]. *)
Module Activity.
Record t := mk {
  prompt_tokens : Z;
  completion_tokens : Z;
  reasoning_tokens : Z;
  cached_tokens : Z;
  request_count : Z;
}.
Definition zero : t := mk 0 0 0 0 0.
End Activity.

(** ** WindowAggregator: [sum_daily_window] (scraper.py, lines 304-355)

    A calendar date [YYYY-MM-DD] is represented by its day number: the map
    from canonical date strings to day numbers is a bijection, under which
    [(end - timedelta(days=i)).strftime("%Y-%m-%d")] is [end - i] and the
    comparison of two formatted dates is the comparison of their numbers.
    The keys of [daily_data] are taken as day numbers accordingly; the
    current UTC date that the source reads with [datetime.utcnow()] is the
    argument [today]. *)
Module Window.

Definition history := list (Z * Daily.t).

Fixpoint lookup (h : history) (d : Z) : option Daily.t :=
  match h with
  | [] => None
  | (d', v) :: r => if d =? d' then Some v else lookup r d
  end.

(** [for i in range(days): d = end - i; if skip_partial and d == today:
    continue; dates_to_sum.append(d)] *)
Definition candidate_loop (end_ days : Z) (skip_partial : bool) (today : Z) : list Z :=
  filter (fun d => negb (skip_partial && (d =? today)))
    (map (fun i => end_ - Z.of_nat i) (seq 0 (Z.to_nat days))).

(** The extra day appended when [end_date] itself was today. *)
Definition dates_to_sum (end_ days : Z) (skip_partial : bool) (today : Z) : list Z :=
  let ds := candidate_loop end_ days skip_partial today in
  if skip_partial && (end_ =? today) && (Z.of_nat (List.length ds) <? days)
  then (ds ++ [end_ - days])%list
  else ds.

Definition add_day (r : Activity.t) (day : Daily.t) : Activity.t :=
  Activity.mk (Activity.prompt_tokens r + Daily.prompt day)
              (Activity.completion_tokens r + Daily.completion day)
              (Activity.reasoning_tokens r + Daily.reasoning day)
              (Activity.cached_tokens r + Daily.cached day)
              (Activity.request_count r + Daily.count day).

Definition sum_step (daily_data : history) (r : Activity.t) (d : Z) : Activity.t :=
  match lookup daily_data d with
  | Some day => add_day r day
  | None => r
  end.

Definition sum_daily_window (daily_data : history) (end_date days : Z)
    (skip_partial : bool) (today : Z) : Activity.t :=
  fold_left (sum_step daily_data) (dates_to_sum end_date days skip_partial today)
    Activity.zero.

(** Spec side: the field-wise sum of the records of a list of dates, an
    absent date counting as the all-zero record. *)
Definition day_or_zero (h : history) (d : Z) : Daily.t :=
  match lookup h d with Some v => v | None => Daily.zero end.

Definition window_total (h : history) (ds : list Z) : Activity.t :=
  fold_right (fun d acc => add_day acc (day_or_zero h d)) Activity.zero ds.

(** The dates [D, D-1, ..., D-(n-1)] and [D-1, ..., D-n]. *)
Definition last_days (D : Z) (n : Z) : list Z :=
  map (fun i => D - Z.of_nat i) (seq 0 (Z.to_nat n)).
Definition days_before (D : Z) (n : Z) : list Z :=
  map (fun i => D - Z.of_nat i) (seq 1 (Z.to_nat n)).

End Window.

(** ** Python's [round(x, ndigits)] on an exact value *)

(** Round to the nearest integer, ties to even. *)
Definition round_half_even (q : Q) : Z :=
  let f := Qfloor q in
  match Qcompare (q - inject_Z f) (1 # 2) with
  | Lt => f
  | Gt => f + 1
  | Eq => if Z.even f then f else f + 1
  end.

Definition py_round (x : Q) (ndigits : nat) : Q :=
  let p := Z.to_pos (10 ^ Z.of_nat ndigits) in
  round_half_even (x * inject_Z (Zpos p)) # p.

(** ** Small string helpers *)

Definition dq : ascii := "034"%char.
Definition bs : ascii := "092"%char.

Fixpoint string_map (f : ascii -> ascii) (s : string) : string :=
  match s with
  | EmptyString => EmptyString
  | String c r => String (f c) (string_map f r)
  end.

(** [s.split(sep)[0]]: the text before the first [sep]. *)
Fixpoint split_head (sep : ascii) (s : string) : string :=
  match s with
  | EmptyString => EmptyString
  | String c r => if Ascii.eqb c sep then EmptyString else String c (split_head sep r)
  end.

(** ** PriceBook: [fetch_model_pricing] and [_parse_price] (api.py) *)
Module Api.

Record PriceRecord := mk_price {
  id : string;
  name : string;
  prompt_price : Q;
  completion_price : Q;
  reasoning_price : Q;
  image_price : Q;
  web_search_price : Q;
  cache_read_price : Q;
  cache_write_price : Q;
}.

(** One element of the feed's ["data"] list: its string attributes
    (["id"], ["canonical_slug"], ["name"]) and its ["pricing"] dict
    (an absent ["pricing"] key is the empty dict). *)
Record RawModel := mk_raw {
  attrs : Dict.t string;
  pricing : Dict.t string;
}.

Section PriceBook.

(** Python's [float(value)] on a string: [Some x], or [None] when it
    raises [ValueError].  Non-finite results are outside the model. *)
Variable py_float : string -> option Q.

(** [_parse_price]: [if not value: return 0.0]; [float(value)], or
    [0.0] on [ValueError]. *)
Definition _parse_price (value : string) : Q :=
  match value with
  | EmptyString => 0
  | _ => match py_float value with Some x => x | None => 0 end
  end.

(** The entry built for one feed model (api.py, lines 242-269). *)
Definition build_entry (model : RawModel) : PriceRecord :=
  let model_id := Dict.get_default (attrs model) "id" EmptyString in
  let name := Dict.get_default (attrs model) "name" EmptyString in
  let pr := pricing model in
  let prompt_price := _parse_price (Dict.get_default pr "prompt" "0") in
  let completion_price := _parse_price (Dict.get_default pr "completion" "0") in
  let reasoning_price := _parse_price (Dict.get_default pr "internal_reasoning" EmptyString) in
  let image_price := _parse_price (Dict.get_default pr "image" "0") in
  let web_search_price := _parse_price (Dict.get_default pr "web_search" "0") in
  let cache_read_price := _parse_price (Dict.get_default pr "input_cache_read" "0") in
  let cache_write_price := _parse_price (Dict.get_default pr "input_cache_write" "0") in
  (* Fall back to completion price for reasoning if not explicitly set *)
  let reasoning_price :=
    if Qeq_bool reasoning_price 0 then completion_price else reasoning_price in
  mk_price model_id name prompt_price completion_price reasoning_price
    image_price web_search_price cache_read_price cache_write_price.

(** The loop body: index the entry by canonical slug and by id. *)
Definition index_model (pricing_map : Dict.t PriceRecord) (model : RawModel)
    : Dict.t PriceRecord :=
  let model_id := Dict.get_default (attrs model) "id" EmptyString in
  let canonical_slug := Dict.get_default (attrs model) "canonical_slug" EmptyString in
  let entry := build_entry model in
  let m1 := match canonical_slug with
            | EmptyString => pricing_map
            | _ => Dict.set pricing_map canonical_slug entry
            end in
  match model_id with
  | EmptyString => m1
  | _ => Dict.set m1 model_id entry
  end.

Definition fetch_model_pricing (data : list RawModel) : Dict.t PriceRecord :=
  fold_left index_model data [].

End PriceBook.

(** A [float()] for plain decimal literals [digits[.digits]], used to run
    the price book on concrete feeds. *)
Fixpoint digits_value (acc : Z) (scale : positive) (frac : bool) (s : string)
    : option Q :=
  match s with
  | EmptyString => Some (acc # scale)
  | String c r =>
      if Ascii.eqb c "."%char then
        if frac then None else digits_value acc scale true r
      else
        let n := Z.of_nat (nat_of_ascii c) - 48 in
        if (0 <=? n) && (n <=? 9) then
          digits_value (acc * 10 + n) (if frac then scale * 10 else scale)%positive frac r
        else None
  end.

Definition decimal_float (s : string) : option Q := digits_value 0 1 false s.

End Api.

(** ** RevenueReconciler: [calculate_revenue], [_find_pricing],
    [_slug_similarity] (calculator.py) *)
Module Calculator.

(** A ranked model dict of [scrape_rankings]. *)
Module Ranked.
Record t := mk {
  rank : Z;
  slug : string;
  name : string;
  total_tokens : Z;
  percent_change : Z;
}.
End Ranked.

(** One element of the report's ["models"] list. *)
Module RevenueRecord.
Record t := mk {
  rank : Z;
  slug : string;
  name : string;
  total_tokens : Z;
  percent_change : Z;
  prompt_tokens : Z;
  completion_tokens : Z;
  reasoning_tokens : Z;
  cached_tokens : Z;
  request_count : Z;
  prompt_ratio : Q;
  completion_ratio : Q;
  reasoning_ratio : Q;
  prompt_price : Q;
  completion_price : Q;
  reasoning_price : Q;
  cache_read_price : Q;
  estimated_revenue : Q;
  is_free : bool;
}.
End RevenueRecord.

(** The returned dict, ["token_breakdown"] flattened into four fields. *)
Module Report.
Record t := mk {
  models : list RevenueRecord.t;
  total_revenue : Q;
  total_tokens : Z;
  total_models : Z;
  paid_models : Z;
  free_models : Z;
  breakdown_prompt_tokens : Z;
  breakdown_completion_tokens : Z;
  breakdown_reasoning_tokens : Z;
  breakdown_cached_tokens : Z;
}.
End Report.

(** Python's [str.split()] separators (the ASCII ones). *)
Definition is_space (c : ascii) : bool :=
  let n := nat_of_ascii c in
  ((9 <=? n) && (n <=? 13))%nat || ((28 <=? n) && (n <=? 32))%nat.

Definition lower_char (c : ascii) : ascii :=
  let n := nat_of_ascii c in
  if ((65 <=? n) && (n <=? 90))%nat then ascii_of_nat (n + 32) else c.

(** [str.split()]: maximal runs of non-separators. *)
Fixpoint split_words (word : string) (s : string) : list string :=
  match s with
  | EmptyString => match word with EmptyString => [] | _ => [word] end
  | String c r =>
      if is_space c then
        match word with
        | EmptyString => split_words EmptyString r
        | _ => word :: split_words EmptyString r
        end
      else split_words (word ++ String c EmptyString)%string r
  end.

(** [set(a.lower().replace("-", " ").replace(".", " ").split())] *)
Definition slug_parts (a : string) : list string :=
  nodup string_dec
    (split_words EmptyString
       (string_map (fun c => if Ascii.eqb c "-"%char || Ascii.eqb c "."%char
                             then " "%char else c)
          (string_map lower_char a))).

Definition _slug_similarity (a b : string) : Q :=
  let a_parts := slug_parts a in
  let b_parts := slug_parts b in
  match a_parts, b_parts with
  | [], _ | _, [] => 0
  | _, _ =>
      let intersection := filter (fun x => existsb (String.eqb x) b_parts) a_parts in
      let union := (List.length a_parts + List.length b_parts - List.length intersection)%nat in
      inject_Z (Z.of_nat (List.length intersection)) / inject_Z (Z.of_nat union)
  end.

(** The partial-match scan over [pricing.items()]. *)
Fixpoint scan_pricing (slug : string) (items : Dict.t Api.PriceRecord)
    : option Api.PriceRecord :=
  match items with
  | [] => None
  | (key, value) :: r =>
      if String.prefix (split_head "/"%char slug ++ "/")%string key
         && negb (Qle_bool (_slug_similarity slug key) (7 # 10))
      then Some value
      else scan_pricing slug r
  end.

Definition _find_pricing (slug : string) (pricing : Dict.t Api.PriceRecord)
    : option Api.PriceRecord :=
  match Dict.get pricing slug with
  | Some v => Some v
  | None =>
      let base_slug := split_head ":"%char slug in
      match Dict.get pricing base_slug with
      | Some v => Some v
      | None => scan_pricing slug pricing
      end
  end.

(** The loop body for one ranked model: its record and its unrounded
    [revenue] (calculator.py, lines 47-134). *)
Definition model_step (activities : Dict.t Activity.t)
    (pricing : Dict.t Api.PriceRecord) (model : Ranked.t)
    : RevenueRecord.t * Q :=
  let slug := Ranked.slug model in
  let activity := Dict.get_default activities slug Activity.zero in
  let prompt_tokens := Activity.prompt_tokens activity in
  let completion_tokens := Activity.completion_tokens activity in
  let reasoning_tokens := Activity.reasoning_tokens activity in
  let cached_tokens := Activity.cached_tokens activity in
  let request_count := Activity.request_count activity in
  let analytics_total := prompt_tokens + completion_tokens in
  let '(prompt_ratio, completion_ratio, reasoning_ratio) :=
    if analytics_total >? 0 then
      ((inject_Z prompt_tokens / inject_Z analytics_total)%Q,
       (inject_Z completion_tokens / inject_Z analytics_total)%Q,
       (inject_Z reasoning_tokens / inject_Z analytics_total)%Q)
    else (0%Q, 0%Q, 0%Q) in
  let price_info := _find_pricing slug pricing in
  let price f := match price_info with Some p => f p | None => 0%Q end in
  let prompt_price := price Api.prompt_price in
  let completion_price := price Api.completion_price in
  let reasoning_price := price Api.reasoning_price in
  let cache_read_price := price Api.cache_read_price in
  let is_free := Qeq_bool prompt_price 0 && Qeq_bool completion_price 0 in
  let revenue :=
    (inject_Z prompt_tokens * prompt_price
     + inject_Z completion_tokens * completion_price
     + inject_Z cached_tokens * cache_read_price)%Q in
  (RevenueRecord.mk (Ranked.rank model) slug (Ranked.name model)
     (Ranked.total_tokens model) (Ranked.percent_change model)
     prompt_tokens completion_tokens reasoning_tokens cached_tokens request_count
     (py_round prompt_ratio 4) (py_round completion_ratio 4)
     (py_round reasoning_ratio 4)
     prompt_price completion_price reasoning_price cache_read_price
     (py_round revenue 2) is_free,
   revenue).

(** The loop's local variables. *)
Record Acc := mk_acc {
  models_result : list RevenueRecord.t;
  acc_total_revenue : Q;
  acc_total_tokens : Z;
  paid_count : Z;
  free_count : Z;
  agg_prompt : Z;
  agg_completion : Z;
  agg_reasoning : Z;
  agg_cached : Z;
}.

Definition acc0 : Acc := mk_acc [] 0 0 0 0 0 0 0 0.

Definition loop_body (activities : Dict.t Activity.t)
    (pricing : Dict.t Api.PriceRecord) (acc : Acc) (model : Ranked.t) : Acc :=
  let '(record, revenue) := model_step activities pricing model in
  let free := RevenueRecord.is_free record in
  mk_acc (models_result acc ++ [record])
    (acc_total_revenue acc + revenue)%Q
    (acc_total_tokens acc + Ranked.total_tokens model)
    (if free then paid_count acc else paid_count acc + 1)
    (if free then free_count acc + 1 else free_count acc)
    (agg_prompt acc + RevenueRecord.prompt_tokens record)
    (agg_completion acc + RevenueRecord.completion_tokens record)
    (agg_reasoning acc + RevenueRecord.reasoning_tokens record)
    (agg_cached acc + RevenueRecord.cached_tokens record).

(** [models_result.sort(key=lambda x: x["estimated_revenue"], reverse=True)]:
    a stable sort, descending; equal keys keep their order. *)
Definition sort_by_revenue_desc (l : list RevenueRecord.t) : list RevenueRecord.t :=
  sort_stable (fun y x => negb (Qle_bool (RevenueRecord.estimated_revenue y)
                                         (RevenueRecord.estimated_revenue x))) l.

Definition calculate_revenue (rankings : list Ranked.t)
    (activities : Dict.t Activity.t) (pricing : Dict.t Api.PriceRecord)
    : Report.t :=
  let acc := fold_left (loop_body activities pricing) rankings acc0 in
  let models_result := sort_by_revenue_desc (models_result acc) in
  Report.mk models_result
    (py_round (acc_total_revenue acc) 2)
    (acc_total_tokens acc)
    (Z.of_nat (List.length models_result))
    (paid_count acc) (free_count acc)
    (agg_prompt acc) (agg_completion acc) (agg_reasoning acc) (agg_cached acc).

End Calculator.

(** ** Regular-expression matching

    Every pattern of the extractors is matched by a hand-written matcher
    [string -> option (captures * rest)] at one start position.  Where a
    greedy class is followed by a character it excludes (a run of
    non-quotes then a quote, a run of digits then a comma) the greedy run
    is the only run that can
    succeed, so no backtracking is needed; the one lazy [.*?] is a search
    for the first position at which the rest of the pattern matches. *)
Module Regex.

Definition obind {A B} (o : option A) (f : A -> option B) : option B :=
  match o with Some a => f a | None => None end.

Notation "'let?' x ':=' e 'in' k" := (obind e (fun x => k))
  (at level 200, x name, e at level 100, k at level 200).

(** A string literal written with ['] for the double quote. *)
Definition qs (s : string) : string :=
  string_map (fun c => if Ascii.eqb c "'"%char then dq else c) s.

Definition is_digit (c : ascii) : bool :=
  ((48 <=? nat_of_ascii c) && (nat_of_ascii c <=? 57))%nat.

(** A literal. *)
Fixpoint lit (p s : string) : option string :=
  match p, s with
  | EmptyString, _ => Some s
  | String a p', String b s' => if Ascii.eqb a b then lit p' s' else None
  | _, _ => None
  end.

(** A greedy [[class]*]. *)
Fixpoint span (f : ascii -> bool) (s : string) : string * string :=
  match s with
  | EmptyString => (EmptyString, EmptyString)
  | String c r =>
      if f c then let '(a, b) := span f r in (String c a, b)
      else (EmptyString, s)
  end.

(** [\d+] *)
Definition digits1 (s : string) : option (string * string) :=
  match span is_digit s with
  | (EmptyString, _) => None
  | p => Some p
  end.

(** [\d{n}] *)
Fixpoint digits_exact (n : nat) (s : string) : option (string * string) :=
  match n, s with
  | O, _ => Some (EmptyString, s)
  | S k, String c r =>
      if is_digit c then
        match digits_exact k r with
        | Some (a, b) => Some (String c a, b)
        | None => None
        end
      else None
  | S _, EmptyString => None
  end.

(** [(\d{4}-\d{2}-\d{2})] *)
Definition iso_date (s : string) : option (string * string) :=
  let? p1 := digits_exact 4 s in
  let? r := lit "-" (snd p1) in
  let? p2 := digits_exact 2 r in
  let? r := lit "-" (snd p2) in
  let? p3 := digits_exact 2 r in
  Some ((fst p1 ++ "-" ++ fst p2 ++ "-" ++ fst p3)%string, snd p3).

(** The source's [Q]: a backslash-escaped or a plain double quote;
    the escaped alternative is tried first. *)
Definition q_quote (s : string) : option string :=
  match s with
  | String c (String d r) =>
      if Ascii.eqb c bs && Ascii.eqb d dq then Some r
      else if Ascii.eqb c dq then Some (String d r) else None
  | String c r => if Ascii.eqb c dq then Some r else None
  | EmptyString => None
  end.

(** [Q name Q] *)
Definition q_name (name s : string) : option string :=
  let? r := q_quote s in
  let? r := lit name r in
  q_quote r.

(** The class of characters that are neither a double quote nor a
    backslash. *)
Definition not_quote_bs (c : ascii) : bool :=
  negb (Ascii.eqb c dq || Ascii.eqb c bs).

(** [.*?] (no DOTALL) followed by [k]: the first position, before any
    newline, at which [k] matches. *)
Fixpoint lazy_any {A} (k : string -> option A) (s : string) : option A :=
  match k s with
  | Some a => Some a
  | None =>
      match s with
      | EmptyString => None
      | String c r => if Ascii.eqb c "010"%char then None else lazy_any k r
      end
  end.

(** [.*?] with DOTALL followed by a literal: the text before the first
    occurrence of [stop], and the text after it. *)
Fixpoint lazy_until (stop s : string) : option (string * string) :=
  match lit stop s with
  | Some rest => Some (EmptyString, rest)
  | None =>
      match s with
      | EmptyString => None
      | String c r =>
          match lazy_until stop r with
          | Some (a, rest) => Some (String c a, rest)
          | None => None
          end
      end
  end.

(** [re.findall] / [re.finditer]: try the pattern at each position from
    left to right; after a match resume where it ended.  [skip] counts the
    characters of the last match still to be passed.  No pattern below
    matches the empty string. *)
Fixpoint findall_from {A} (p : string -> option (A * string)) (skip : nat)
    (s : string) : list A :=
  match s with
  | EmptyString => []
  | String _ s' =>
      match skip with
      | S k => findall_from p k s'
      | O =>
          match p s with
          | Some (a, rest) =>
              a :: findall_from p (pred (String.length s - String.length rest)) s'
          | None => findall_from p 0 s'
          end
      end
  end.

Definition findall {A} (p : string -> option (A * string)) (s : string) : list A :=
  findall_from p 0 s.

(** [str.replace] of a two-character sequence by one character. *)
Fixpoint replace_pair (a b c : ascii) (s : string) : string :=
  match s with
  | EmptyString => EmptyString
  | String x s' =>
      match s' with
      | EmptyString => s
      | String y r =>
          if Ascii.eqb x a && Ascii.eqb y b then String c (replace_pair a b c r)
          else String x (replace_pair a b c s')
      end
  end.

(** [int(s)] for a string of decimal digits. *)
Definition int_of_digits (s : string) : Z :=
  match Api.decimal_float s with Some q => Qnum q | None => 0 end.

(** [int(float(s))] for [s] matching [\d+(\.\d+)?]: [float] rounds the
    exact decimal value to the nearest double (53-bit significand, ties
    to even) and [int] truncates.  Values of 2^1024 and more, for which
    Python raises [OverflowError], are outside the model. *)
Definition ge_pow2 (a b k : Z) : bool :=
  if k >=? 0 then a >=? b * 2 ^ k else a * 2 ^ (- k) >=? b.

Definition mul_pow2 (q : Q) (k : Z) : Q :=
  if k >=? 0 then (Qnum q * 2 ^ k) # Qden q
  else Qnum q # (Qden q * Z.to_pos (2 ^ (- k))).

Definition int_of_float (q : Q) : Z :=
  let a := Qnum q in
  let b := Zpos (Qden q) in
  if a <=? 0 then 0 else
  let k0 := Z.log2 a - Z.log2 b in
  let e := if ge_pow2 a b k0 then k0 else k0 - 1 in
  let m := round_half_even (mul_pow2 q (52 - e)) in
  if e - 52 >=? 0 then m * 2 ^ (e - 52) else m / 2 ^ (52 - e).

Definition int_float_of_string (s : string) : Z :=
  match Api.decimal_float s with Some q => int_of_float q | None => 0 end.

End Regex.

(** ** ChartExtractor and DailyAnalyticsExtractor (scraper.py) *)
Module Scraper.
Import Regex.

(** *** [scrape_rankings_history] (lines 52-155) *)

Record WeeklyChartEntry := mk_week {
  week_start : string;
  models : Dict.t Z;
  others : Z;
  total : Z;
}.

(** [<script[^>]*>(.*?)</script>] with DOTALL, capturing the body. *)
Definition script_pat (s : string) : option (string * string) :=
  let? r := lit "<script" s in
  let? r := lit ">" (snd (span (fun c => negb (Ascii.eqb c ">"%char)) r)) in
  lazy_until "</script>" r.

(** The entry marker [x then a date then ys then an opening brace]; the
    capture is the date and the text after the brace. *)
Definition marker_pat (s : string) : option ((string * string) * string) :=
  let? r := lit (qs "'x':'") s in
  let? p := iso_date r in
  let r := snd (span (fun c => negb (Ascii.eqb c dq)) (snd p)) in
  let? r := lit (qs "','ys':{") r in
  Some ((fst p, r), r).

(** A key in quotes, a colon and a number [\d+(\.\d+)?]. *)
Definition pair_pat (s : string) : option ((string * string) * string) :=
  let? r := lit (String dq EmptyString) s in
  let (key, r) := span (fun c => negb (Ascii.eqb c dq)) r in
  match key with
  | EmptyString => None
  | _ =>
      let? r := lit (qs "':") r in
      let? p := digits1 r in
      let (ip, r) := p in
      let whole := Some ((key, ip), r) in
      match r with
      | String c r' =>
          if Ascii.eqb c "."%char then
            match digits1 r' with
            | Some (fp, r'') => Some ((key, (ip ++ "." ++ fp)%string), r'')
            | None => whole
            end
          else whole
      | EmptyString => whole
      end
  end.

(** The depth-counted brace walk from the opening brace over at most
    [bound] characters; [Some] of the text up to and including the
    matching closing brace. *)
Fixpoint match_brace (bound : nat) (depth : Z) (s : string) : option string :=
  match bound, s with
  | O, _ | _, EmptyString => None
  | S b, String c r =>
      if Ascii.eqb c "{"%char then
        option_map (String c) (match_brace b (depth + 1) r)
      else if Ascii.eqb c "}"%char then
        if depth - 1 =? 0 then Some (String c EmptyString)
        else option_map (String c) (match_brace b (depth - 1) r)
      else option_map (String c) (match_brace b depth r)
  end.

(** [ys_str]: from the brace to its match, or the brace alone when no
    match lies within 10000 characters. *)
Definition ys_span (after_brace : string) : string :=
  match match_brace 10000 0 (String "{"%char after_brace) with
  | Some ys => ys
  | None => String "{"%char EmptyString
  end.

Fixpoint has_char (c : ascii) (s : string) : bool :=
  match s with
  | EmptyString => false
  | String x r => Ascii.eqb x c || has_char c r
  end.

(** The inner loop over the pairs of one entry. *)
Definition add_pair (st : Dict.t Z * Z * Z) (pr : string * string) : Dict.t Z * Z * Z :=
  let '(models, others, total) := st in
  let (slug, tokens_str) := pr in
  let tokens := int_float_of_string tokens_str in
  let total := total + tokens in
  if String.eqb slug "Others" then (models, tokens, total)
  else (Dict.set models slug tokens, others, total).

(** The entry for one marker, if it is accepted (lines 117-144). *)
Definition chart_entry (date_str : string) (pairs : list (string * string))
    : option WeeklyChartEntry :=
  match pairs with
  | [] => None
  | _ =>
      if existsb (fun p => has_char "/"%char (fst p)) pairs then
        let '(models, others, total) := fold_left add_pair pairs ([], 0, 0) in
        Some (mk_week date_str models others total)
      else None
  end.

Definition marker_entry (m : string * string) : option WeeklyChartEntry :=
  chart_entry (fst m) (findall pair_pat (ys_span (snd m))).

Fixpoint filter_some {A} (l : list (option A)) : list A :=
  match l with
  | [] => []
  | Some a :: r => a :: filter_some r
  | None :: r => filter_some r
  end.

(** [unescaped = script.replace('\\"', '"').replace('\\\\', '\\')] *)
Definition unescape (script : string) : string :=
  replace_pair bs bs bs (replace_pair bs dq dq script).

(** The accepted entries of one script segment. *)
Definition segment_entries (script : string) : list WeeklyChartEntry :=
  filter_some (map marker_entry (findall marker_pat (unescape script))).

(** The outer loop body: segments under 1000 characters are skipped; a
    segment replaces the best one only with strictly more entries. *)
Definition select_best (best : list WeeklyChartEntry) (script : string)
    : list WeeklyChartEntry :=
  if (String.length script <? 1000)%nat then best
  else
    let entries := segment_entries script in
    if (List.length best <? List.length entries)%nat then entries else best.

(** [sorted(best_entries, key=lambda x: x["week_start"])]: stable,
    comparing strings by character code. *)
Definition sort_by_week (l : list WeeklyChartEntry) : list WeeklyChartEntry :=
  sort_stable (fun y x => String.ltb (week_start y) (week_start x)) l.

Definition scrape_rankings_history (html : string) : list WeeklyChartEntry :=
  sort_by_week (fold_left select_best (findall script_pat html) []).

(** *** [_extract_daily_data] (lines 241-301) *)

(** One first-pattern match: date, variant, completion, prompt,
    reasoning and count. *)
Record DailyMatch := mk_match {
  m_date : string;
  m_variant : string;
  m_comp : Z;
  m_prompt : Z;
  m_reasoning : Z;
  m_count : Z;
}.

(** [Q name Q :] *)
Definition field (name : string) (s : string) : option string :=
  let? r := q_name name s in lit ":" r.

(** [Q name Q :(\d+)] *)
Definition int_field (name : string) (s : string) : option (Z * string) :=
  let? r := field name s in
  let? p := digits1 r in
  Some (int_of_digits (fst p), snd p).

(** The common head of both patterns: the quoted key date, a colon, a
    quote, the captured ISO date, a run of characters that are neither a
    quote nor a backslash, a quote, a comma and the quoted key
    model_permaslug (every quote being the source's [Q]). *)
Definition date_prefix (s : string) : option (string * string) :=
  let? r := field "date" s in
  let? r := q_quote r in
  let? p := iso_date r in
  let? r := q_quote (snd (span not_quote_bs (snd p))) in
  let? r := lit "," r in
  let? r := q_name "model_permaslug" r in
  Some (fst p, r).

(** [daily_pattern] *)
Definition daily_pat (s : string) : option (DailyMatch * string) :=
  let? p := date_prefix s in
  let (date_str, r) := p in
  let? r := lit ":" r in
  let? r := q_quote r in
  let? r := q_quote (snd (span not_quote_bs r)) in
  let? r := lit "," r in
  let? r := field "variant" r in
  let? r := q_quote r in
  let (variant, r) := span not_quote_bs r in
  let? r := q_quote r in
  let? r := lit "," r in
  let? c := int_field "total_completion_tokens" r in
  let? r := lit "," (snd c) in
  let? p := int_field "total_prompt_tokens" r in
  let? r := lit "," (snd p) in
  let? re := int_field "total_native_tokens_reasoning" r in
  let? r := lit "," (snd re) in
  let? n := int_field "count" r in
  Some (mk_match date_str variant (fst c) (fst p) (fst re) (fst n), snd n).

(** [cached_pattern]: after the [model_permaslug] key, [.*?] up to
    [Q total_native_tokens_cached Q :(\d+)]. *)
Definition cached_pat (s : string) : option ((string * Z) * string) :=
  let? p := date_prefix s in
  let (date_str, r) := p in
  let? c := lazy_any (int_field "total_native_tokens_cached") r in
  Some ((date_str, fst c), snd c).

(** [cached_by_date[date_str] = cached_by_date.get(date_str, 0) + int(cached)] *)
Definition add_cached (m : Dict.t Z) (e : string * Z) : Dict.t Z :=
  Dict.set m (fst e) (Dict.get_default m (fst e) 0 + snd e).

(** The grouping loop: create the zero record on a new date, then add
    the four counts. *)
Definition add_daily (m : Dict.t Daily.t) (e : DailyMatch) : Dict.t Daily.t :=
  let cur := Dict.get_default m (m_date e) Daily.zero in
  Dict.set m (m_date e)
    (Daily.mk (Daily.prompt cur + m_prompt e)
              (Daily.completion cur + m_comp e)
              (Daily.reasoning cur + m_reasoning e)
              (Daily.cached cur)
              (Daily.count cur + m_count e)).

(** [if date_str in daily_totals: daily_totals[date_str]["cached"] = cached_val] *)
Definition merge_cached (m : Dict.t Daily.t) (e : string * Z) : Dict.t Daily.t :=
  match Dict.get m (fst e) with
  | Some cur =>
      Dict.set m (fst e)
        (Daily.mk (Daily.prompt cur) (Daily.completion cur) (Daily.reasoning cur)
                  (snd e) (Daily.count cur))
  | None => m
  end.

Definition _extract_daily_data (html : string) : Dict.t Daily.t :=
  let daily_entries := findall daily_pat html in
  match daily_entries with
  | [] => []
  | _ =>
      let cached_entries := findall cached_pat html in
      let cached_by_date := fold_left add_cached cached_entries [] in
      let daily_totals := fold_left add_daily daily_entries [] in
      fold_left merge_cached cached_by_date daily_totals
  end.

End Scraper.

(** ** Python [str] and [float] helpers used by the remaining functions *)
Module Text.
Import Regex.

(** [s.replace(c, t)] for a one-character [c]. *)
Fixpoint replace_char (c : ascii) (t s : string) : string :=
  match s with
  | EmptyString => EmptyString
  | String x r =>
      if Ascii.eqb x c then (t ++ replace_char c t r)%string
      else String x (replace_char c t r)
  end.

(** [str.isspace()] and [\s] on the characters 0-255 read as Latin-1:
    the [str.split()] separators, NEL (133) and NO-BREAK SPACE (160). *)
Definition py_isspace (c : ascii) : bool :=
  Calculator.is_space c || (nat_of_ascii c =? 133)%nat || (nat_of_ascii c =? 160)%nat.

(** [str.strip()]: leading and trailing whitespace removed. *)
Fixpoint lstrip (s : string) : string :=
  match s with
  | EmptyString => EmptyString
  | String c r => if py_isspace c then lstrip r else s
  end.

Fixpoint rstrip (s : string) : string :=
  match s with
  | EmptyString => EmptyString
  | String c r =>
      match rstrip r with
      | EmptyString => if py_isspace c then EmptyString else String c EmptyString
      | r' => String c r'
      end
  end.

Definition py_strip (s : string) : string := rstrip (lstrip s).

Fixpoint any_char (f : ascii -> bool) (s : string) : bool :=
  match s with
  | EmptyString => false
  | String c r => f c || any_char f r
  end.

Definition upper_char (c : ascii) : ascii :=
  let n := nat_of_ascii c in
  if ((97 <=? n) && (n <=? 122))%nat then ascii_of_nat (n - 32) else c.

(** [[0-9.]] *)
Definition is_num_char (c : ascii) : bool := is_digit c || Ascii.eqb c "."%char.

(** [$] without MULTILINE: at the end, or before a final newline. *)
Definition at_end (s : string) : bool :=
  match s with
  | EmptyString => true
  | String c EmptyString => Ascii.eqb c "010"%char
  | _ => false
  end.

(** [.*?] with DOTALL followed by [k]: the first position at which [k]
    matches. *)
Fixpoint lazy_dotall {A} (k : string -> option A) (s : string) : option A :=
  match k s with
  | Some a => Some a
  | None =>
      match s with
      | EmptyString => None
      | String _ r => lazy_dotall k r
      end
  end.

(** [float()] of a string matching [[0-9.]+]: it raises [ValueError]
    ([None]) unless the string has at least one digit and at most one
    dot; its value is then the exact decimal, rounded by [double_of]. *)
Definition float_of_numeral (s : string) : option Q :=
  if any_char is_digit s then Api.decimal_float s else None.

(** The double nearest to a non-negative exact value (53-bit significand,
    ties to even), as an exact value.  The exponent range is not bounded:
    values of 2^1024 and more, where Python overflows, are outside the
    model, and values under 2^-1022, which Python keeps as subnormals,
    are rounded here with 53 bits. *)
Definition double_of (q : Q) : Q :=
  let a := Qnum q in
  let b := Zpos (Qden q) in
  if a <=? 0 then 0 else
  let k0 := Z.log2 a - Z.log2 b in
  let e := if ge_pow2 a b k0 then k0 else k0 - 1 in
  let m := round_half_even (mul_pow2 q (52 - e)) in
  if e - 52 >=? 0 then inject_Z (m * 2 ^ (e - 52))
  else Qred (m # Z.to_pos (2 ^ (52 - e))).

(** [int(x)] on a float: truncation toward zero. *)
Definition py_int (x : Q) : Z :=
  if Qle_bool 0 x then Qfloor x else - Qfloor (- x).

(** [a / b] on two ints: the exact quotient rounded to a double. *)
Definition true_div (a b : Z) : Q := double_of (a # Z.to_pos b).

(** [str(n)] of an int.  [fuel] bounds the number of decimal digits,
    which is at most the number of binary digits. *)
Fixpoint digits_of (fuel : nat) (n : Z) (acc : string) : string :=
  match fuel with
  | O => acc
  | S f =>
      let acc := String (ascii_of_nat (48 + Z.to_nat (n mod 10))) acc in
      if n <? 10 then acc else digits_of f (n / 10) acc
  end.

Definition str_Z (n : Z) : string :=
  let fuel := S (Z.to_nat (Z.log2 (Z.abs n))) in
  if n <? 0 then String "-"%char (digits_of fuel (- n) EmptyString)
  else digits_of fuel n EmptyString.

Fixpoint zeros (n : nat) : string :=
  match n with O => EmptyString | S k => String "0"%char (zeros k) end.

(** [f"{x:.{nd}f}"] for a non-negative float [x] and [nd >= 1]: the
    exact value rounded half-to-even at [nd] decimals. *)
Definition format_fixed (x : Q) (nd : nat) : string :=
  let p := 10 ^ Z.of_nat nd in
  let n := round_half_even (x * inject_Z p) in
  let frac := str_Z (n mod p) in
  (str_Z (n / p) ++ "." ++ zeros (nd - String.length frac) ++ frac)%string.

End Text.

(** ** The page fetchers and the HTML fallback (scraper.py) *)
Module ScraperPages.
Import Regex Text.

(** *** [parse_token_count] (lines 31-49) *)

Definition upper_unit (c : ascii) : bool :=
  existsb (Ascii.eqb (upper_char c)) ["T"; "G"; "B"; "M"; "K"]%char.

(** [re.match(r"^([0-9.]+)\s*([TGBMK])?$", text, re.IGNORECASE)]: the
    number and the optional suffix.  The greedy [[0-9.]+] and [\s*] can
    give back nothing the rest accepts: a digit, a dot or a space is
    neither a suffix nor an end, and a final newline is consumed by
    [\s*] itself.  The optional suffix is tried first. *)
Definition token_pat (s : string) : option (string * option ascii) :=
  let (num, r) := span is_num_char s in
  match num with
  | EmptyString => None
  | _ =>
      let r := snd (span py_isspace r) in
      match r with
      | String c r' =>
          if upper_unit c && at_end r' then Some (num, Some c)
          else if at_end r then Some (num, None) else None
      | EmptyString => Some (num, None)
      end
  end.

Definition multipliers : Dict.t Z :=
  [("T", 1000000000000); ("B", 1000000000); ("M", 1000000); ("K", 1000)].

(** [None] is the [ValueError] raised by [float()]. *)
Definition parse_token_count (text : string) : option Z :=
  let text := replace_char ","%char EmptyString (py_strip text) in
  match token_pat text with
  | None => Some 0
  | Some (g1, g2) =>
      match float_of_numeral g1 with
      | None => None
      | Some x =>
          let number := double_of x in
          let suffix := match g2 with
                        | Some c => String (upper_char c) EmptyString
                        | None => EmptyString
                        end in
          let multiplier := Dict.get_default multipliers suffix 1 in
          Some (py_int (double_of (number * inject_Z multiplier)))
      end
  end.

(** *** [_scrape_model_activity_html] (lines 441-468) *)

Definition is_unit (c : ascii) : bool :=
  existsb (Ascii.eqb c) ["T"; "G"; "B"; "M"; "K"]%char.

(** [([0-9.]+[TGBMK]?)</div>]: the optional unit is tried first; giving
    back a digit or a dot cannot help, as [<] follows. *)
Definition amount_pat (s : string) : option string :=
  let (num, r) := span is_num_char s in
  match num with
  | EmptyString => None
  | _ =>
      let with_unit :=
        match r with
        | String c r' =>
            if is_unit c then
              let? _ := lit "</div>" r' in Some (num ++ String c EmptyString)%string
            else None
        | EmptyString => None
        end in
      match with_unit with
      | Some g => Some g
      | None => let? _ := lit "</div>" r in Some num
      end
  end.

(** The pattern for one label at one position (DOTALL), capturing the
    amount; each [.*?] is a search for the first position at which the
    rest matches, which is the order in which the engine backtracks. *)
Definition label_pat (label : string) (s : string) : option string :=
  let? r := lit ("aria-label=" ++ String dq label ++ String dq EmptyString)%string s in
  lazy_dotall (fun r =>
    let? r := lit ("<div class=" ++ String dq "font-medium")%string r in
    let? r := lit (String dq EmptyString) (snd (span (fun c => negb (Ascii.eqb c dq)) r)) in
    let? r := lit (">" ++ label ++ "</div>")%string
                  (snd (span (fun c => negb (Ascii.eqb c ">"%char)) r)) in
    lazy_dotall (fun r => let? r := lit "<div>" r in amount_pat r) r) r.

(** [result[key] = parse_token_count(match.group(1))] when [pattern.search]
    finds a match, else 0. *)
Definition label_tokens (html label : string) : option Z :=
  match lazy_dotall (label_pat label) html with
  | Some g => parse_token_count g
  | None => Some 0
  end.

Definition _scrape_model_activity_html (html : string) : option Activity.t :=
  let? p := label_tokens html "Prompt" in
  let? c := label_tokens html "Completion" in
  let? r := label_tokens html "Reasoning" in
  Some (Activity.mk p c r 0 0).

(** *** [scrape_model_daily_data] (lines 360-393) on the response:
    [None] is a [RequestException]. *)
Definition scrape_model_daily_data (resp : option string) : Dict.t Daily.t :=
  match resp with
  | None => []
  | Some text => Scraper._extract_daily_data text
  end.

(** *** [scrape_all_model_activities] and [scrape_all_model_daily_data]
    (lines 471-518)

    Both run the same loop: one call per ranked model, which requests the
    model page, and a [time.sleep(delay)] after every call but the last.
    The calls' results are given as a function of the call's index and
    slug; the trace records the requests and the sleeps. *)
Inductive Event := Request (slug : string) | Sleep (delay : Q).

Section ScrapeAll.
Context {A : Type}.
Variable scrape_one : nat -> string -> A.
Variable delay : Q.

Fixpoint scrape_all_loop (n i : nat) (models : list Calculator.Ranked.t)
    (st : Dict.t A * list Event) : Dict.t A * list Event :=
  match models with
  | [] => st
  | model :: rest =>
      let slug := Calculator.Ranked.slug model in
      let '(d, trace) := st in
      let d := Dict.set d slug (scrape_one i slug) in
      let trace := trace ++ [Request slug] in
      let trace := if Z.of_nat i <? Z.of_nat n - 1 then trace ++ [Sleep delay] else trace in
      scrape_all_loop n (S i) rest (d, trace)
  end.

Definition scrape_all (rankings : list Calculator.Ranked.t) : Dict.t A * list Event :=
  scrape_all_loop (List.length rankings) 0 rankings ([], []).

End ScrapeAll.

(** [scrape_model_activity] is given by the results of its calls. *)
Definition scrape_all_model_activities (scrape_model_activity : nat -> string -> Activity.t)
    (rankings : list Calculator.Ranked.t) (delay : Q) : Dict.t Activity.t * list Event :=
  scrape_all scrape_model_activity delay rankings.

(** [get i slug] is the response to the [i]-th request. *)
Definition scrape_all_model_daily_data (get : nat -> string -> option string)
    (rankings : list Calculator.Ranked.t) (delay : Q)
    : Dict.t (Dict.t Daily.t) * list Event :=
  scrape_all (fun i slug => scrape_model_daily_data (get i slug)) delay rankings.

End ScraperPages.

(** ** [_format_tokens] (calculator.py, lines 194-205) *)
Module CalculatorFormat.
Import Text.

Definition _format_tokens (count : Z) : string :=
  if count >=? 1000000000000 then (format_fixed (true_div count 1000000000000) 2 ++ "T")%string
  else if count >=? 1000000000 then (format_fixed (true_div count 1000000000) 1 ++ "B")%string
  else if count >=? 1000000 then (format_fixed (true_div count 1000000) 1 ++ "M")%string
  else if count >=? 1000 then (format_fixed (true_div count 1000) 1 ++ "K")%string
  else str_Z count.

End CalculatorFormat.

(** ** Chart labels and token formatting (readme_gen.py) *)
Module Readme.
Import Regex Text.

(** [format_tokens] (lines 13-23) *)
Definition format_tokens (count : Z) : string :=
  if count >=? 1000000000000 then (format_fixed (true_div count 1000000000000) 2 ++ "T")%string
  else if count >=? 1000000000 then (format_fixed (true_div count 1000000000) 1 ++ "B")%string
  else if count >=? 1000000 then (format_fixed (true_div count 1000000) 1 ++ "M")%string
  else if count >=? 1000 then (format_fixed (true_div count 1000) 1 ++ "K")%string
  else str_Z count.

(** [_sanitize_mermaid_label] (lines 35-48) *)
Definition _sanitize_mermaid_label (text : string) : string :=
  let text := replace_char dq "'" text in
  let text := replace_char "("%char EmptyString text in
  let text := replace_char ")"%char EmptyString text in
  let text := replace_char "["%char EmptyString text in
  let text := replace_char "]"%char EmptyString text in
  let text := replace_char "{"%char EmptyString text in
  let text := replace_char "}"%char EmptyString text in
  let text := replace_char "#"%char EmptyString text in
  let text := replace_char ":"%char " -" text in
  let text := replace_char ";"%char EmptyString text in
  py_strip text.

(** [sep in s] and [s.split(sep, 1)[1]]: the text after the first
    occurrence of [sep], if any. *)
Fixpoint after_first (sep s : string) : option string :=
  match lit sep s with
  | Some r => Some r
  | None =>
      match s with
      | EmptyString => None
      | String _ r => after_first sep r
      end
  end.

(** [s[:k]], a negative [k] counting from the end. *)
Definition slice_to (k : Z) (s : string) : string :=
  if k >=? 0 then substring 0 (Z.to_nat k) s
  else substring 0 (Z.to_nat (Z.of_nat (String.length s) + k)) s.

(** [_truncate_label] (lines 51-63) *)
Definition _truncate_label (text : string) (max_len : Z) : string :=
  let text := _sanitize_mermaid_label text in
  let text := match after_first " - " text with Some r => r | None => text end in
  if Z.of_nat (String.length text) >? max_len then (slice_to (max_len - 2) text ++ "..")%string
  else text.

End Readme.

(** ** Concrete inputs *)
Module Inputs.
Import Regex Scraper Calculator.

(** A history with 5 prompt tokens on day 10 only. *)
Definition hist_day10 : Window.history := [(10, Daily.mk 5 0 0 0 0)].

(** One ranked model whose activity has cached tokens but no prompt or
    completion tokens, priced at 0.0000005 per cached token. *)
Definition cached_only_rankings : list Ranked.t :=
  [Ranked.mk 1 "acme/model-1" "Model 1" 1000000 0].
Definition cached_only_activities : Dict.t Activity.t :=
  [("acme/model-1", Activity.mk 0 0 0 1000000 0)].
Definition acme_price : Api.PriceRecord :=
  Api.mk_price "acme/model-1" "Model 1" (3 # 1000000) (15 # 1000000)
    (15 # 1000000) 0 0 (1 # 2000000) 0.
Definition acme_pricing : Dict.t Api.PriceRecord := [("acme/model-1", acme_price)].

(** Two ranked models with 4 prompt tokens each at 0.001 per token:
    0.004 of revenue each. *)
Definition small_rankings : list Ranked.t :=
  [Ranked.mk 1 "acme/a" "A" 100 0; Ranked.mk 2 "acme/b" "B" 50 0].
Definition small_activities : Dict.t Activity.t :=
  [("acme/a", Activity.mk 4 0 0 0 1); ("acme/b", Activity.mk 4 0 0 0 1)].
Definition small_price : Api.PriceRecord :=
  Api.mk_price "acme/a" "A" (1 # 1000) (1 # 1000) (1 # 1000) 0 0 0 0.
Definition small_pricing : Dict.t Api.PriceRecord :=
  [("acme/a", small_price); ("acme/b", small_price)].

(** A feed model with completion price 0.02 and an empty reasoning price. *)
Definition raw_reasoning_empty : Api.RawModel :=
  Api.mk_raw [("id", "acme/r1"); ("canonical_slug", "acme/r1-2025")]
    [("prompt", "0.01"); ("completion", "0.02");
     ("internal_reasoning", EmptyString)].

(** One first-pattern analytics entry, written with ['] for the quote. *)
Definition analytics_entry (d comp prompt reasoning count : string) : string :=
  qs ("'date':'" ++ d ++ "T00:00:00','model_permaslug':'acme/m','variant':'standard','total_completion_tokens':"
      ++ comp ++ ",'total_prompt_tokens':" ++ prompt
      ++ ",'total_native_tokens_reasoning':" ++ reasoning ++ ",'count':" ++ count ++ "}").

(** A page whose only entry reports more reasoning than completion tokens. *)
Definition page_reasoning_high : string :=
  analytics_entry "2025-01-01" "1" "2" "5" "1".

(** A page with two entries for one date, both with completion at least
    reasoning. *)
Definition page_two_variants : string :=
  (analytics_entry "2025-01-01" "10" "2" "5" "1"
   ++ analytics_entry "2025-01-01" "7" "3" "7" "2")%string.

(** One second-pattern entry carrying only a cached total. *)
Definition cached_entry (d cached : string) : string :=
  qs ("'date':'" ++ d ++ "T00:00:00','model_permaslug':'acme/m','total_native_tokens_cached':"
      ++ cached ++ "}").

(** The two entries above followed by a cached total for their date. *)
Definition page_with_cached : string :=
  (page_two_variants ++ cached_entry "2025-01-01" "40")%string.

Fixpoint padding (n : nat) : string :=
  match n with O => EmptyString | S k => String "a"%char (padding k) end.

(** A chart entry with week [d] and the pairs [body]. *)
Definition chart_marker (d body : string) : string :=
  qs ("'x':'" ++ d ++ "','ys':{" ++ body ++ "}").

Definition script (body : string) : string :=
  ("<script>" ++ body ++ "</script>")%string.

(** A chart segment whose one entry names the slug [acme/a] twice. *)
Definition page_duplicate_key : string :=
  script (chart_marker "2025-01-06" "'acme/a':1,'acme/a':2,'Others':4" ++ padding 1000)%string.

(** A short segment with two accepted entries, then a long one with one. *)
Definition short_segment : string :=
  (chart_marker "2025-01-06" "'acme/a':1" ++ chart_marker "2025-01-13" "'acme/a':2")%string.
Definition long_segment : string :=
  (chart_marker "2025-01-06" "'acme/b':3" ++ padding 1000)%string.
Definition page_short_and_long : string :=
  (script short_segment ++ script long_segment)%string.

End Inputs.

(** ** Further concrete inputs *)
Module MoreInputs.
Import Calculator.

(** One ranked model with 1 prompt and 2 completion tokens, and a price
    table that only knows a model of another author. *)
Definition one_model : Ranked.t := Ranked.mk 1 "acme/a" "A" 100 0.
Definition one_activity : Dict.t Activity.t := [("acme/a", Activity.mk 1 2 0 0 1)].
Definition other_pricing : Dict.t Api.PriceRecord := [("other/b", Inputs.small_price)].

(** An activity legend with a Prompt and a Reasoning entry and no
    Completion entry. *)
Definition legend_item (label amount : string) : string :=
  ("aria-label=" ++ String dq label ++ String dq ("<div class=" ++ String dq
     ("font-medium text-sm" ++ String dq
        (">" ++ label ++ "</div><div>" ++ amount ++ "</div>"))))%string.
Definition activity_legend : string :=
  (legend_item "Prompt" "1.5K" ++ legend_item "Reasoning" "2M")%string.

End MoreInputs.

(** ** Notions used to state properties of the code *)
Module Observe.

(** [p] occurs in [s]. *)
Definition occurs (p s : string) : Prop :=
  exists pre post, s = (pre ++ p ++ post)%string.

(** The number of occurrences of the character [c] in [s]. *)
Fixpoint count_char (c : ascii) (s : string) : nat :=
  match s with
  | EmptyString => O
  | String x r => ((if Ascii.eqb x c then 1 else 0) + count_char c r)%nat
  end.

(** [l] with [sep] between any two consecutive elements. *)
Fixpoint intersperse {A} (sep : A) (l : list A) : list A :=
  match l with
  | [] => []
  | [x] => [x]
  | x :: r => x :: sep :: intersperse sep r
  end.

(** The index of the last element of [l] satisfying [p]. *)
Fixpoint last_index {A} (p : A -> bool) (l : list A) : option nat :=
  match l with
  | [] => None
  | x :: r =>
      match last_index p r with
      | Some j => Some (S j)
      | None => if p x then Some O else None
      end
  end.

End Observe.

(** * Proofs *)

Ltac zify_bools :=
  repeat match goal with
  | H : (_ =? _) = true |- _ => apply Z.eqb_eq in H
  | H : (_ =? _) = false |- _ => apply Z.eqb_neq in H
  | H : (_ <? _) = true |- _ => apply Z.ltb_lt in H
  | H : (_ <? _) = false |- _ => apply Z.ltb_ge in H
  | H : (_ <=? _) = true |- _ => apply Z.leb_le in H
  | H : (_ <=? _) = false |- _ => apply Z.leb_gt in H
  | H : (_ && _)%bool = true |- _ => apply andb_true_iff in H; destruct H
  | H : (_ && _)%bool = false |- _ => apply andb_false_iff in H; destruct H
  end.

Ltac case_ifs :=
  repeat match goal with
  | |- context [if ?b then _ else _] =>
      lazymatch b with
      | context [if _ then _ else _] => fail
      | _ => destruct b eqn:?
      end
  end.

(** ** Dictionaries *)

Lemma dict_get_set {V} (d : Dict.t V) k k' v :
  Dict.get (Dict.set d k v) k' = if String.eqb k' k then Some v else Dict.get d k'.
Proof.
  induction d as [|[k0 v0] r IH]; simpl.
  - destruct (String.eqb k' k); reflexivity.
  - destruct (String.eqb k k0) eqn:E1; simpl.
    + apply String.eqb_eq in E1; subst k0.
      destruct (String.eqb k' k); reflexivity.
    + rewrite IH. destruct (String.eqb k' k0) eqn:E2; [|reflexivity].
      apply String.eqb_eq in E2; subst k0.
      destruct (String.eqb k' k) eqn:E3; [|reflexivity].
      apply String.eqb_eq in E3; subst. rewrite String.eqb_refl in E1; discriminate.
Qed.

Lemma filter_all {A} (f : A -> bool) (l : list A) :
  (forall x, In x l -> f x = true) -> filter f l = l.
Proof.
  induction l as [|x r IH]; intros H; simpl; [reflexivity|].
  rewrite (H x (or_introl eq_refl)), IH; [reflexivity|].
  intros y Hy; apply H; right; exact Hy.
Qed.

(** ** WindowAggregator *)
Module WindowFacts.
Import Window.

Lemma fold_sum_step h ds acc :
  fold_left (sum_step h) ds acc =
  Activity.mk
    (Activity.prompt_tokens acc + Activity.prompt_tokens (window_total h ds))
    (Activity.completion_tokens acc + Activity.completion_tokens (window_total h ds))
    (Activity.reasoning_tokens acc + Activity.reasoning_tokens (window_total h ds))
    (Activity.cached_tokens acc + Activity.cached_tokens (window_total h ds))
    (Activity.request_count acc + Activity.request_count (window_total h ds)).
Proof.
  revert acc; induction ds as [|d ds IH]; intros acc; simpl.
  - destruct acc; simpl; f_equal; lia.
  - rewrite IH; unfold sum_step, day_or_zero.
    destruct (lookup h d) as [v|]; destruct acc; [destruct v|]; simpl; f_equal; lia.
Qed.

Lemma sum_daily_window_total h D days skip today :
  sum_daily_window h D days skip today = window_total h (dates_to_sum D days skip today).
Proof.
  unfold sum_daily_window; rewrite fold_sum_step.
  destruct (window_total h (dates_to_sum D days skip today)); reflexivity.
Qed.

Lemma in_last_days D n x :
  In x (last_days D n) <-> exists i, (i < Z.to_nat n)%nat /\ x = D - Z.of_nat i.
Proof.
  unfold last_days; rewrite in_map_iff; split.
  - intros [i [<- Hi]]; apply in_seq in Hi; exists i; split; [lia | reflexivity].
  - intros [i [Hi ->]]; exists i; split; [reflexivity | apply in_seq; lia].
Qed.

Lemma dates_no_skip D days today :
  dates_to_sum D days false today = last_days D days.
Proof.
  unfold dates_to_sum, candidate_loop; simpl.
  apply filter_all; reflexivity.
Qed.

Lemma filter_shifted D k m :
  filter (fun d => negb (d =? D)) (map (fun i => D - Z.of_nat i) (seq (S k) m))
  = map (fun i => D - Z.of_nat i) (seq (S k) m).
Proof.
  apply filter_all; intros x Hx; apply in_map_iff in Hx.
  destruct Hx as [i [<- Hi]]; apply in_seq in Hi.
  simpl; apply negb_true_iff, Z.eqb_neq; lia.
Qed.

Lemma dates_skip_today D days :
  dates_to_sum D days true D = days_before D days.
Proof.
  unfold dates_to_sum, candidate_loop, days_before.
  rewrite Z.eqb_refl.
  destruct (Z.to_nat days) as [|n] eqn:E.
  - simpl; destruct (0 <? days) eqn:L; zify_bools; [lia | reflexivity].
  - rewrite (seq_S n 1), map_app; simpl.
    rewrite Z.sub_0_r, Z.eqb_refl; simpl.
    rewrite filter_shifted, length_map, length_seq.
    destruct (Z.of_nat n <? days) eqn:L; zify_bools; [|lia].
    do 2 f_equal; lia.
Qed.

Lemma filter_neq_length D t k m :
  Nat.add (List.length (filter (fun d => negb (d =? t)) (map (fun i => D - Z.of_nat i) (seq k m))))
    (if (Z.of_nat k <=? D - t) && (D - t <? Z.of_nat (k + m)) then 1%nat else 0%nat) = m.
Proof.
  revert k; induction m as [|m IH]; intros k; simpl.
  - case_ifs; zify_bools; lia.
  - specialize (IH (S k)); revert IH.
    destruct (D - Z.of_nat k =? t) eqn:E; cbn [negb filter List.length];
      case_ifs; intros IH; zify_bools; lia.
Qed.

Lemma dates_outside D days t :
  ~ (D - days < t <= D) -> dates_to_sum D days true t = last_days D days.
Proof.
  intros Hout; unfold dates_to_sum, candidate_loop; fold (last_days D days).
  rewrite filter_all.
  2:{ intros x Hx; apply in_last_days in Hx; destruct Hx as [i [Hi ->]].
      simpl; apply negb_true_iff, Z.eqb_neq; lia. }
  destruct (D =? t) eqn:E; simpl; [|reflexivity].
  unfold last_days; rewrite length_map, length_seq.
  destruct (Z.of_nat (Z.to_nat days) <? days) eqn:L; zify_bools; [lia | reflexivity].
Qed.

End WindowFacts.

Module WindowClaims.
Import Window WindowFacts.

(** Claim C2: with [skip_partial = false], [sum_daily_window] over [days]
    days ending at [D] is the field-wise sum of the records of the dates
    [D, D-1, ..., D-(days-1)], absent dates counting as zero; with
    [skip_partial = true] and [D] the current UTC date, it is the sum over
    [D-1, ..., D-days]. *)
Theorem sum_daily_window_exact_dates h D days today :
  sum_daily_window h D days false today = window_total h (last_days D days) /\
  sum_daily_window h D days true D = window_total h (days_before D days).
Proof.
  rewrite !sum_daily_window_total, dates_no_skip, dates_skip_today; split; reflexivity.
Qed.

(** Claim C6 (counterexample): for the same history, end date, width and
    [skip_partial], two runs on different current dates (day 10, then
    day 11) return different sums: the source reads the clock. *)
Lemma sum_daily_window_depends_on_clock :
  sum_daily_window Inputs.hist_day10 10 7 true 10
  <> sum_daily_window Inputs.hist_day10 10 7 true 11.
Proof. vm_compute; discriminate. Qed.

(** Claim C6 (amended): the current date is the only input of
    [sum_daily_window] besides its arguments, and it matters only when
    [skip_partial] holds and the current date lies inside the window
    [(D - days, D]]: with [skip_partial = false], or with both current
    dates outside the window, any two runs agree. *)
Theorem sum_daily_window_clock_only_inside h D days skip t1 t2 :
  skip = false \/ (~ (D - days < t1 <= D) /\ ~ (D - days < t2 <= D)) ->
  sum_daily_window h D days skip t1 = sum_daily_window h D days skip t2.
Proof.
  intros [-> | [H1 H2]]; rewrite !sum_daily_window_total.
  - rewrite !dates_no_skip; reflexivity.
  - destruct skip; [|rewrite !dates_no_skip; reflexivity].
    rewrite (dates_outside D days t1 H1), (dates_outside D days t2 H2); reflexivity.
Qed.

Lemma sum_daily_window_clock_only_inside_witness :
  (false = false \/ (~ (10 - 7 < 10 <= 10) /\ ~ (10 - 7 < 11 <= 10))) /\
  sum_daily_window Inputs.hist_day10 10 7 false 10
  = sum_daily_window Inputs.hist_day10 10 7 false 11.
Proof.
  split; [left; reflexivity|].
  apply (sum_daily_window_clock_only_inside Inputs.hist_day10 10 7 false 10 11).
  left; reflexivity.
Defined.

(** Claim C10: with [skip_partial = true] and the current date strictly
    inside the window (after [D - days], before [D]), the current date is
    dropped and nothing is appended: the sum is over the other [days - 1]
    candidate dates. *)
Theorem sum_daily_window_today_inside h D days today :
  D - days < today < D ->
  sum_daily_window h D days true today
    = window_total h (filter (fun d => negb (d =? today)) (last_days D days)) /\
  In today (last_days D days) /\
  List.length (filter (fun d => negb (d =? today)) (last_days D days))
    = (Z.to_nat days - 1)%nat.
Proof.
  intros Hin; rewrite sum_daily_window_total.
  split; [|split].
  - unfold dates_to_sum, candidate_loop.
    rewrite (proj2 (Z.eqb_neq D today)) by lia; reflexivity.
  - apply in_last_days; exists (Z.to_nat (D - today)); split; lia.
  - pose proof (filter_neq_length D today 0 (Z.to_nat days)) as L.
    unfold last_days.
    destruct ((Z.of_nat 0 <=? D - today) && (D - today <? Z.of_nat (0 + Z.to_nat days)))
      eqn:B; zify_bools; lia.
Qed.

Lemma sum_daily_window_today_inside_witness :
  (10 - 7 < 8 < 10) /\
  sum_daily_window Inputs.hist_day10 10 7 true 8
    = window_total Inputs.hist_day10 (filter (fun d => negb (d =? 8)) (last_days 10 7)) /\
  In 8 (last_days 10 7) /\
  List.length (filter (fun d => negb (d =? 8)) (last_days 10 7)) = (Z.to_nat 7 - 1)%nat.
Proof.
  split; [lia|].
  apply (sum_daily_window_today_inside Inputs.hist_day10 10 7 8); lia.
Defined.

End WindowClaims.

(** ** Stable sorting *)
Section StableSortFacts.
Context {A : Type} (precedes : A -> A -> bool) (R : A -> A -> Prop).
Hypothesis precedes_R : forall x y, precedes y x = true -> R y x.
Hypothesis not_precedes_R : forall x y, precedes y x = false -> R x y.

Lemma insert_stable_perm x l : Permutation (insert_stable precedes x l) (x :: l).
Proof.
  induction l as [|y r IH]; simpl; [reflexivity|].
  destruct (precedes y x); [|reflexivity].
  transitivity (y :: x :: r); [constructor; exact IH | apply perm_swap].
Qed.

Lemma sort_stable_perm l : Permutation (sort_stable precedes l) l.
Proof.
  induction l as [|x r IH]; simpl; [reflexivity|].
  rewrite insert_stable_perm; constructor; exact IH.
Qed.

Lemma insert_stable_sorted x l : Sorted R l -> Sorted R (insert_stable precedes x l).
Proof.
  induction 1 as [|y r Hs IH Hd]; simpl.
  - repeat constructor.
  - destruct (precedes y x) eqn:P.
    + constructor; [exact IH|].
      destruct r as [|z r']; simpl.
      * constructor; apply precedes_R; exact P.
      * destruct (precedes z x); constructor.
        -- inversion Hd; assumption.
        -- apply precedes_R; exact P.
    + constructor; [constructor; assumption|].
      constructor; apply not_precedes_R; exact P.
Qed.

Lemma sort_stable_sorted l : Sorted R (sort_stable precedes l).
Proof.
  induction l as [|x r IH]; simpl; [constructor|].
  apply insert_stable_sorted; exact IH.
Qed.

End StableSortFacts.

(** ** RevenueReconciler and PriceBook *)
Module CalculatorFacts.
Import Calculator.

Lemma fold_loop_body a p ms acc :
  models_result (fold_left (loop_body a p) ms acc)
    = models_result acc ++ map (fun m => fst (model_step a p m)) ms /\
  acc_total_revenue (fold_left (loop_body a p) ms acc)
    = fold_left Qplus (map (fun m => snd (model_step a p m)) ms) (acc_total_revenue acc) /\
  acc_total_tokens (fold_left (loop_body a p) ms acc)
    = fold_left Z.add (map Ranked.total_tokens ms) (acc_total_tokens acc).
Proof.
  revert acc; induction ms as [|m ms IH]; intros acc; simpl.
  - rewrite app_nil_r; auto.
  - destruct (IH (loop_body a p acc m)) as (H1 & H2 & H3).
    rewrite H1, H2, H3.
    unfold loop_body; destruct (model_step a p m) as [r v]; simpl.
    rewrite <- app_assoc; auto.
Qed.

Lemma fold_left_add_sum l z : fold_left Z.add l z = z + sum_Z l.
Proof.
  revert z; induction l as [|x r IH]; intros z; simpl; [lia|].
  rewrite IH; lia.
Qed.

Lemma sort_by_revenue_desc_sorted l :
  Sorted (fun a b => RevenueRecord.estimated_revenue b <= RevenueRecord.estimated_revenue a)%Q
    (sort_by_revenue_desc l).
Proof.
  apply sort_stable_sorted.
  - intros x y P; apply negb_true_iff in P.
    apply Qlt_le_weak, Qnot_le_lt; intros Hle; apply Qle_bool_iff in Hle; congruence.
  - intros x y P; apply negb_false_iff, Qle_bool_iff in P; exact P.
Qed.

End CalculatorFacts.

Module CalculatorClaims.
Import Calculator CalculatorFacts Inputs.

(** Claim C1 (code bug, evaluated at the failing input): a model whose
    activity has no prompt or completion tokens but 1000000 cached tokens,
    priced at 0.0000005 per cached token, gets ratios 0.0 and keeps its
    leaderboard total, but its estimated revenue is 0.5, not 0.0. *)
Theorem calculate_revenue_cached_only_revenue :
  match Report.models
          (calculate_revenue cached_only_rankings cached_only_activities acme_pricing) with
  | [r] =>
      RevenueRecord.prompt_tokens r + RevenueRecord.completion_tokens r = 0 /\
      (RevenueRecord.prompt_ratio r == 0)%Q /\
      (RevenueRecord.completion_ratio r == 0)%Q /\
      (RevenueRecord.reasoning_ratio r == 0)%Q /\
      RevenueRecord.total_tokens r = 1000000 /\
      (RevenueRecord.estimated_revenue r == 1 # 2)%Q
  | _ => False
  end.
Proof. vm_compute; repeat split; reflexivity. Qed.

(** Claim C3 (counterexample): two models with an unrounded revenue of
    0.004 each; each is reported as 0.0, yet the total is 0.01, not the
    re-rounded sum 0.0 of the rounded revenues. *)
Lemma calculate_revenue_total_not_sum_of_rounded :
  ~ (Report.total_revenue (calculate_revenue small_rankings small_activities small_pricing)
     == py_round (fold_left Qplus
                   (map RevenueRecord.estimated_revenue
                      (Report.models (calculate_revenue small_rankings small_activities
                                        small_pricing))) 0%Q) 2)%Q.
Proof. intros H; apply Qeq_bool_iff in H; vm_compute in H; discriminate. Qed.

(** Claim C3 (amended): the report's total revenue is the sum of the
    unrounded per-model revenues, rounded to 2 decimals (each model's
    estimated revenue being its own unrounded revenue rounded to 2
    decimals); the total tokens are the sum of the leaderboard totals; the
    per-model list is sorted by estimated revenue, descending, and holds
    exactly one record per ranked model. *)
Theorem calculate_revenue_aggregates rankings activities pricing :
  (forall m, RevenueRecord.estimated_revenue (fst (model_step activities pricing m))
             = py_round (snd (model_step activities pricing m)) 2) /\
  Report.total_revenue (calculate_revenue rankings activities pricing)
    = py_round (fold_left Qplus (map (fun m => snd (model_step activities pricing m)) rankings) 0%Q) 2 /\
  Report.total_tokens (calculate_revenue rankings activities pricing)
    = sum_Z (map Ranked.total_tokens rankings) /\
  Sorted (fun a b => RevenueRecord.estimated_revenue b <= RevenueRecord.estimated_revenue a)%Q
    (Report.models (calculate_revenue rankings activities pricing)) /\
  Permutation (Report.models (calculate_revenue rankings activities pricing))
    (map (fun m => fst (model_step activities pricing m)) rankings).
Proof.
  destruct (fold_loop_body activities pricing rankings acc0) as (H1 & H2 & H3).
  unfold calculate_revenue; simpl.
  split.
  { intros m; cbv beta zeta delta [model_step].
    destruct (_ + _ >? 0); reflexivity. }
  rewrite H2, H3, fold_left_add_sum.
  split; [reflexivity|]. split; [reflexivity|].
  split; [apply sort_by_revenue_desc_sorted|].
  rewrite H1; simpl; apply sort_stable_perm.
Qed.

End CalculatorClaims.

Module ApiClaims.
Import Inputs.

(** Claim C7: for every feed entry and every reading of [float()], when
    the parsed reasoning price is 0.0 (also when the raw field is empty or
    malformed), the built record's reasoning price is the parsed
    completion price. *)
Theorem build_entry_reasoning_fallback py_float model :
  Qeq_bool (Api._parse_price py_float
              (Dict.get_default (Api.pricing model) "internal_reasoning" EmptyString)) 0 = true ->
  Api.reasoning_price (Api.build_entry py_float model)
    = Api._parse_price py_float (Dict.get_default (Api.pricing model) "completion" "0").
Proof.
  intros H; cbv beta zeta delta [Api.build_entry].
  rewrite H; reflexivity.
Qed.

(** The entry with completion price 0.02 and an empty reasoning price
    resolves its reasoning price to 0.02. *)
Lemma build_entry_reasoning_fallback_witness :
  Qeq_bool (Api._parse_price Api.decimal_float
              (Dict.get_default (Api.pricing raw_reasoning_empty) "internal_reasoning"
                 EmptyString)) 0 = true /\
  Api.reasoning_price (Api.build_entry Api.decimal_float raw_reasoning_empty)
    = Api._parse_price Api.decimal_float
        (Dict.get_default (Api.pricing raw_reasoning_empty) "completion" "0") /\
  (Api._parse_price Api.decimal_float
     (Dict.get_default (Api.pricing raw_reasoning_empty) "completion" "0") == 2 # 100)%Q.
Proof.
  split; [vm_compute; reflexivity|].
  split; [|vm_compute; reflexivity].
  apply build_entry_reasoning_fallback; vm_compute; reflexivity.
Defined.

End ApiClaims.

(** ** DailyAnalyticsExtractor *)
Module DailyFacts.
Import Regex Scraper.

Lemma get_default_unfold {V} (m : Dict.t V) k def :
  Dict.get_default m k def = match Dict.get m k with Some v => v | None => def end.
Proof. reflexivity. Qed.

Lemma get_not_in {V} (d : Dict.t V) k : ~ In k (map fst d) -> Dict.get d k = None.
Proof.
  induction d as [|[k0 v0] r IH]; simpl; intros H; [reflexivity|].
  destruct (String.eqb k k0) eqn:E.
  - apply String.eqb_eq in E; subst; exfalso; apply H; left; reflexivity.
  - apply IH; intros Hin; apply H; right; exact Hin.
Qed.

Lemma set_keys_in {V} (d : Dict.t V) k v x :
  In x (map fst (Dict.set d k v)) -> x = k \/ In x (map fst d).
Proof.
  induction d as [|[k0 v0] r IH]; simpl.
  - intros [H|[]]; left; symmetry; exact H.
  - destruct (String.eqb k k0); simpl.
    + intros [H|H]; right; [left; exact H | right; exact H].
    + intros [H|H]; [right; left; exact H|].
      destruct (IH H) as [H'|H']; [left; exact H' | right; right; exact H'].
Qed.

Lemma set_nodup {V} (d : Dict.t V) k v :
  NoDup (map fst d) -> NoDup (map fst (Dict.set d k v)).
Proof.
  induction d as [|[k0 v0] r IH]; simpl; intros H.
  - constructor; [intros []|constructor].
  - inversion H as [|? ? Hni Hnd]; subst.
    destruct (String.eqb k k0) eqn:E; simpl; [exact H|].
    constructor; [|apply IH; exact Hnd].
    intros Hin; destruct (set_keys_in r k v k0 Hin) as [Heq|Heq].
    + subst; rewrite String.eqb_refl in E; discriminate.
    + exact (Hni Heq).
Qed.

Lemma fold_add_cached_nodup C m :
  NoDup (map fst m) -> NoDup (map fst (fold_left add_cached C m)).
Proof.
  revert m; induction C as [|c C IH]; intros m H; simpl; [exact H|].
  apply IH; unfold add_cached; apply set_nodup; exact H.
Qed.

Lemma fold_add_cached_get C m d :
  Dict.get_default (fold_left add_cached C m) d 0
  = Dict.get_default m d 0 + sum_Z (map snd (filter (fun c => String.eqb (fst c) d) C)).
Proof.
  revert m; induction C as [|c C IH]; intros m; cbn [fold_left filter map]; [simpl; lia|].
  rewrite IH.
  assert (Hdef : Dict.get_default (add_cached m c) d 0
                 = if String.eqb (fst c) d then Dict.get_default m d 0 + snd c
                   else Dict.get_default m d 0).
  { unfold add_cached; rewrite (get_default_unfold (Dict.set _ _ _)), dict_get_set.
    rewrite String.eqb_sym; destruct (String.eqb (fst c) d) eqn:E; [|reflexivity].
    apply String.eqb_eq in E; rewrite E; reflexivity. }
  rewrite Hdef; destruct (String.eqb (fst c) d); cbn [map]; unfold sum_Z; simpl; lia.
Qed.

(** After the grouping loop, a date holds the record it started with plus
    the sums of the four counts over the matches of that date. *)
Lemma fold_add_daily_get E m d :
  Dict.get (fold_left add_daily E m) d =
  let cur := Dict.get_default m d Daily.zero in
  match filter (fun e => String.eqb (m_date e) d) E with
  | [] => Dict.get m d
  | E' => Some (Daily.mk (Daily.prompt cur + sum_Z (map m_prompt E'))
                         (Daily.completion cur + sum_Z (map m_comp E'))
                         (Daily.reasoning cur + sum_Z (map m_reasoning E'))
                         (Daily.cached cur)
                         (Daily.count cur + sum_Z (map m_count E')))
  end.
Proof.
  revert m; induction E as [|e E IH]; intros m; cbn [fold_left filter]; [reflexivity|].
  rewrite IH; clear IH.
  set (cur := Dict.get_default m d Daily.zero).
  set (new := Daily.mk (Daily.prompt cur + m_prompt e) (Daily.completion cur + m_comp e)
                       (Daily.reasoning cur + m_reasoning e) (Daily.cached cur)
                       (Daily.count cur + m_count e)).
  assert (Hget : Dict.get (add_daily m e) d
                 = if String.eqb (m_date e) d then Some new else Dict.get m d).
  { unfold add_daily; rewrite dict_get_set, String.eqb_sym.
    destruct (String.eqb (m_date e) d) eqn:Ed; [|reflexivity].
    apply String.eqb_eq in Ed; subst d; reflexivity. }
  assert (Hdef : Dict.get_default (add_daily m e) d Daily.zero
                 = if String.eqb (m_date e) d then new else cur).
  { rewrite (get_default_unfold (add_daily m e)), Hget.
    destruct (String.eqb (m_date e) d); reflexivity. }
  cbv zeta; rewrite Hdef, Hget.
  destruct (String.eqb (m_date e) d) eqn:Ed; [|reflexivity].
  destruct (filter (fun e0 => String.eqb (m_date e0) d) E) as [|x F];
    subst new; unfold sum_Z; simpl; f_equal; f_equal; lia.
Qed.

(** Copying the cached totals onto the grouped records. *)
Lemma fold_merge_get CB T d :
  NoDup (map fst CB) ->
  Dict.get (fold_left merge_cached CB T) d =
  match Dict.get T d with
  | None => None
  | Some cur =>
      Some (match Dict.get CB d with
            | Some c => Daily.mk (Daily.prompt cur) (Daily.completion cur)
                          (Daily.reasoning cur) c (Daily.count cur)
            | None => cur
            end)
  end.
Proof.
  revert T; induction CB as [|[k c] CB IH]; intros T Hnd; simpl.
  - destruct (Dict.get T d); reflexivity.
  - inversion Hnd as [|? ? Hni Hnd']; subst.
    rewrite (IH _ Hnd'); clear IH.
    unfold merge_cached; simpl.
    destruct (String.eqb d k) eqn:E.
    + apply String.eqb_eq in E; subst k.
      rewrite (get_not_in CB d Hni).
      destruct (Dict.get T d) as [cur|] eqn:G; [|rewrite G; reflexivity].
      rewrite dict_get_set, String.eqb_refl; reflexivity.
    + destruct (Dict.get T k) as [cur0|] eqn:G; [|reflexivity].
      rewrite dict_get_set, E; reflexivity.
Qed.

(** The record of one date, read off the two match lists. *)
Lemma daily_record_sums html d r :
  Dict.get (_extract_daily_data html) d = Some r ->
  let E := filter (fun e => String.eqb (m_date e) d) (findall daily_pat html) in
  E <> [] /\
  Daily.completion r = sum_Z (map m_comp E) /\
  Daily.prompt r = sum_Z (map m_prompt E) /\
  Daily.reasoning r = sum_Z (map m_reasoning E) /\
  Daily.count r = sum_Z (map m_count E) /\
  Daily.cached r
  = sum_Z (map snd (filter (fun c => String.eqb (fst c) d) (findall cached_pat html))).
Proof.
  intros H; cbv zeta; unfold _extract_daily_data in H.
  destruct (findall daily_pat html) as [|e0 E0] eqn:HE; [discriminate H|].
  rewrite <- HE in *.
  rewrite fold_merge_get in H by (apply fold_add_cached_nodup; constructor).
  rewrite fold_add_daily_get in H.
  pose proof (fold_add_cached_get (findall cached_pat html) [] d) as HC.
  rewrite get_default_unfold in HC; simpl in HC.
  destruct (filter (fun e => String.eqb (m_date e) d) (findall daily_pat html))
    as [|x F] eqn:HF; [discriminate H|].
  injection H as H; subst r.
  destruct (Dict.get (fold_left add_cached (findall cached_pat html) []) d) as [c|];
    simpl; repeat split; try discriminate; lia.
Qed.

Lemma sum_le_filter (E : list DailyMatch) :
  forallb (fun e => Z.leb (m_reasoning e) (m_comp e)) E = true ->
  sum_Z (map m_reasoning E) <= sum_Z (map m_comp E).
Proof.
  induction E as [|e E IH]; simpl; [lia|].
  intros H; apply andb_prop in H; destruct H as [H1 H2].
  apply Z.leb_le in H1; specialize (IH H2); unfold sum_Z in *; simpl; lia.
Qed.

Lemma forallb_filter_date (E : list DailyMatch) d :
  forallb (fun e => negb (String.eqb (m_date e) d) || Z.leb (m_reasoning e) (m_comp e)) E = true ->
  forallb (fun e => Z.leb (m_reasoning e) (m_comp e))
    (filter (fun e => String.eqb (m_date e) d) E) = true.
Proof.
  induction E as [|e E IH]; simpl; [reflexivity|].
  intros H; apply andb_prop in H; destruct H as [H1 H2].
  destruct (String.eqb (m_date e) d); simpl in *; [rewrite H1|]; auto.
Qed.

End DailyFacts.

Module DailyClaims.
Import Regex Scraper Inputs DailyFacts.

(** C9: the record emitted for a date has as completion, prompt, reasoning
    and count the sums of those fields over all first-pattern matches of
    that date (over all variants; there is at least one such match), and as
    cached the sum of the cached values of the second-pattern matches of
    that date, which is 0 when there is none. *)
Theorem extract_daily_data_record_sums html d r :
  Dict.get (_extract_daily_data html) d = Some r ->
  let E := filter (fun e => String.eqb (m_date e) d) (findall daily_pat html) in
  E <> [] /\
  Daily.completion r = sum_Z (map m_comp E) /\
  Daily.prompt r = sum_Z (map m_prompt E) /\
  Daily.reasoning r = sum_Z (map m_reasoning E) /\
  Daily.count r = sum_Z (map m_count E) /\
  Daily.cached r
  = sum_Z (map snd (filter (fun c => String.eqb (fst c) d) (findall cached_pat html))).
Proof. apply daily_record_sums. Qed.

Lemma extract_daily_data_record_sums_witness :
  Dict.get (_extract_daily_data page_with_cached) "2025-01-01" = Some (Daily.mk 5 17 12 40 3) /\
  let E := filter (fun e => String.eqb (m_date e) "2025-01-01") (findall daily_pat page_with_cached) in
  E <> [] /\
  Daily.completion (Daily.mk 5 17 12 40 3) = sum_Z (map m_comp E) /\
  Daily.prompt (Daily.mk 5 17 12 40 3) = sum_Z (map m_prompt E) /\
  Daily.reasoning (Daily.mk 5 17 12 40 3) = sum_Z (map m_reasoning E) /\
  Daily.count (Daily.mk 5 17 12 40 3) = sum_Z (map m_count E) /\
  Daily.cached (Daily.mk 5 17 12 40 3)
  = sum_Z (map snd (filter (fun c => String.eqb (fst c) "2025-01-01")
                       (findall cached_pat page_with_cached))).
Proof.
  split; [vm_compute; reflexivity|].
  apply (extract_daily_data_record_sums page_with_cached "2025-01-01" (Daily.mk 5 17 12 40 3)).
  vm_compute; reflexivity.
Defined.

(** C8 (counterexample): on a page whose single entry reports completion 1
    and reasoning 5, the record emitted for its date has fewer completion
    than reasoning tokens. *)
Lemma extract_daily_data_reasoning_exceeds_completion :
  match Dict.get (_extract_daily_data page_reasoning_high) "2025-01-01" with
  | Some r => Daily.completion r < Daily.reasoning r
  | None => False
  end.
Proof. vm_compute; reflexivity. Qed.

(** C8 (amended): the record emitted for a date has completion at least
    reasoning whenever every first-pattern match of that date does; the
    extractor itself checks nothing. *)
Theorem extract_daily_data_reasoning_le html d r :
  Dict.get (_extract_daily_data html) d = Some r ->
  forallb (fun e => negb (String.eqb (m_date e) d) || Z.leb (m_reasoning e) (m_comp e))
    (findall daily_pat html) = true ->
  Daily.reasoning r <= Daily.completion r.
Proof.
  intros H Hall.
  destruct (daily_record_sums html d r H) as (_ & Hc & _ & Hr & _).
  rewrite Hc, Hr; apply sum_le_filter, forallb_filter_date; exact Hall.
Qed.

Lemma extract_daily_data_reasoning_le_witness :
  Dict.get (_extract_daily_data page_two_variants) "2025-01-01" = Some (Daily.mk 5 17 12 0 3) /\
  forallb (fun e => negb (String.eqb (m_date e) "2025-01-01") || Z.leb (m_reasoning e) (m_comp e))
    (findall daily_pat page_two_variants) = true /\
  Daily.reasoning (Daily.mk 5 17 12 0 3) <= Daily.completion (Daily.mk 5 17 12 0 3).
Proof.
  split; [vm_compute; reflexivity|].
  split; [vm_compute; reflexivity|].
  apply (extract_daily_data_reasoning_le page_two_variants "2025-01-01"); vm_compute; reflexivity.
Defined.

End DailyClaims.

(** ** ChartExtractor *)
Module ChartFacts.
Import Regex Scraper.

(** *** [int(float(s))] is never negative *)

Lemma round_half_even_nonneg q : 0 <= Qnum q -> 0 <= round_half_even q.
Proof.
  intros H; unfold round_half_even.
  assert (Hf : 0 <= Qfloor q).
  { destruct q as [n d]; unfold Qfloor; simpl in *; apply Z.div_pos; lia. }
  destruct (_ ?= _)%Q; [destruct (Z.even _)|..]; lia.
Qed.

Lemma mul_pow2_num q k : 0 <= Qnum q -> 0 <= Qnum (mul_pow2 q k).
Proof.
  intros H; unfold mul_pow2; destruct (k >=? 0) eqn:Hk; simpl; [|exact H].
  apply Z.mul_nonneg_nonneg; [exact H|apply Z.pow_nonneg; lia].
Qed.

Lemma int_of_float_nonneg q : 0 <= int_of_float q.
Proof.
  unfold int_of_float.
  destruct (Qnum q <=? 0) eqn:Ha; [lia|].
  apply Z.leb_gt in Ha.
  set (e := if ge_pow2 _ _ _ then _ else _).
  assert (Hm : 0 <= round_half_even (mul_pow2 q (52 - e)))
    by (apply round_half_even_nonneg, mul_pow2_num; lia).
  destruct (e - 52 >=? 0) eqn:He.
  - apply Z.mul_nonneg_nonneg; [exact Hm|apply Z.pow_nonneg; lia].
  - rewrite Z.geb_leb, Z.leb_gt in He. apply Z.div_pos; [exact Hm|apply Z.pow_pos_nonneg; lia].
Qed.

Lemma int_float_of_string_nonneg s : 0 <= int_float_of_string s.
Proof.
  unfold int_float_of_string; destruct (Api.decimal_float s); [apply int_of_float_nonneg|lia].
Qed.

(** *** Sums over the [models] dict *)

Lemma sum_set_fresh (m : Dict.t Z) k v :
  ~ In k (map fst m) -> sum_Z (map snd (Dict.set m k v)) = sum_Z (map snd m) + v.
Proof.
  unfold sum_Z; induction m as [|[k0 v0] r IH]; simpl; intros H; [lia|].
  destruct (String.eqb k k0) eqn:E.
  - apply String.eqb_eq in E; subst; exfalso; apply H; left; reflexivity.
  - simpl; rewrite IH; [lia|]. intros Hin; apply H; right; exact Hin.
Qed.

Lemma sum_set_le (m : Dict.t Z) k v :
  Forall (fun p => 0 <= snd p) m ->
  sum_Z (map snd (Dict.set m k v)) <= sum_Z (map snd m) + v.
Proof.
  unfold sum_Z; induction m as [|[k0 v0] r IH]; simpl; intros H; [lia|].
  inversion H as [|? ? H0 Hr]; subst; simpl in H0.
  destruct (String.eqb k k0); simpl; [lia|].
  specialize (IH Hr); lia.
Qed.

Lemma set_nonneg (m : Dict.t Z) k v :
  Forall (fun p => 0 <= snd p) m -> 0 <= v -> Forall (fun p => 0 <= snd p) (Dict.set m k v).
Proof.
  induction m as [|[k0 v0] r IH]; simpl; intros H Hv.
  - constructor; [exact Hv|constructor].
  - inversion H as [|? ? H0 Hr]; subst.
    destruct (String.eqb k k0); constructor; auto.
Qed.

(** *** The loop over the pairs of one entry *)

Lemma add_pair_step m o t k v :
  add_pair (m, o, t) (k, v)
  = if String.eqb k "Others" then (m, int_float_of_string v, t + int_float_of_string v)
    else (Dict.set m k (int_float_of_string v), o, t + int_float_of_string v).
Proof. reflexivity. Qed.

Definition pair_state_ok (st : Dict.t Z * Z * Z) : Prop :=
  Forall (fun p => 0 <= snd p) (fst (fst st)) /\ 0 <= snd (fst st) /\
  sum_Z (map snd (fst (fst st))) + snd (fst st) <= snd st.

Lemma fold_add_pair_ok pairs st :
  pair_state_ok st -> pair_state_ok (fold_left add_pair pairs st).
Proof.
  revert st; induction pairs as [|[k v] pairs IH]; intros [[m o] t] H; cbn [fold_left]; [exact H|].
  apply IH; rewrite add_pair_step.
  destruct H as (Hm & Ho & Hs); simpl in *.
  pose proof (int_float_of_string_nonneg v).
  destruct (String.eqb k "Others"); unfold pair_state_ok; simpl.
  - repeat split; [exact Hm|lia|lia].
  - pose proof (sum_set_le m k (int_float_of_string v) Hm).
    repeat split; [apply set_nonneg; assumption|lia|lia].
Qed.

Lemma fold_add_pair_exact pairs m o t :
  NoDup (map fst pairs) ->
  (forall k, In k (map fst pairs) -> ~ In k (map fst m)) ->
  (In "Others" (map fst pairs) -> o = 0) ->
  let st := fold_left add_pair pairs (m, o, t) in
  sum_Z (map snd (fst (fst st))) + snd (fst st) - snd st = sum_Z (map snd m) + o - t.
Proof.
  revert m o t; induction pairs as [|[k v] pairs IH]; intros m o t Hnd Hfresh Ho; cbn [fold_left]; [simpl; lia|].
  inversion Hnd as [|? ? Hni Hnd']; subst.
  rewrite add_pair_step.
  destruct (String.eqb k "Others") eqn:E.
  - apply String.eqb_eq in E; subst k.
    rewrite IH; [simpl in Ho; rewrite (Ho (or_introl eq_refl)); lia|exact Hnd'| |].
    + intros k Hk; apply Hfresh; right; exact Hk.
    + intros Hin; contradiction.
  - rewrite IH; [|exact Hnd'| |].
    + rewrite sum_set_fresh; [lia|]. apply Hfresh; left; reflexivity.
    + intros k' Hk' Hin.
      destruct (DailyFacts.set_keys_in m k _ k' Hin) as [Heq|Heq].
      * subst; contradiction.
      * apply (Hfresh k'); [right; exact Hk'|exact Heq].
    + intros Hin; apply Ho; right; exact Hin.
Qed.

(** *** Where the emitted entries come from *)

Lemma chart_entry_some d pairs e :
  chart_entry d pairs = Some e ->
  week_start e = d /\ existsb (fun p => has_char "/"%char (fst p)) pairs = true /\
  fold_left add_pair pairs ([], 0, 0) = (models e, others e, total e).
Proof.
  unfold chart_entry; destruct pairs as [|p ps]; [discriminate|].
  destruct (existsb _ (p :: ps)) eqn:Ex; [|discriminate].
  destruct (fold_left add_pair (p :: ps) ([], 0, 0)) as [[m o] t] eqn:F.
  intros H; injection H as <-; auto.
Qed.

Lemma in_filter_some {A B} (f : A -> option B) l e :
  In e (filter_some (map f l)) -> exists x, In x l /\ f x = Some e.
Proof.
  induction l as [|x l IH]; simpl; [intros []|].
  destruct (f x) as [b|] eqn:F; simpl.
  - intros [H|H]; [subst; exists x; auto|].
    destruct (IH H) as (y & Hy & Hf); exists y; auto.
  - intros H; destruct (IH H) as (y & Hy & Hf); exists y; auto.
Qed.

Lemma fold_select_in L best e :
  In e (fold_left select_best L best) ->
  In e best \/ exists s, In s L /\ In e (segment_entries s).
Proof.
  revert best; induction L as [|s L IH]; intros best; simpl; [left; exact H|].
  intros H; destruct (IH _ H) as [H'|(s' & Hs & He)]; [|right; exists s'; auto].
  unfold select_best in H'.
  destruct (String.length s <? 1000)%nat; [left; exact H'|].
  destruct (List.length best <? List.length (segment_entries s))%nat;
    [right; exists s; auto|left; exact H'].
Qed.

Lemma scrape_in html e :
  In e (scrape_rankings_history html) ->
  exists s m, In s (findall script_pat html) /\ In m (findall marker_pat (unescape s)) /\
              marker_entry m = Some e.
Proof.
  unfold scrape_rankings_history, sort_by_week; intros H.
  apply (Permutation_in _ (sort_stable_perm _ _)) in H.
  destruct (fold_select_in _ _ _ H) as [[]|(s & Hs & He)].
  unfold segment_entries in He.
  destruct (in_filter_some _ _ _ He) as (m & Hm & Hme).
  exists s, m; auto.
Qed.

(** *** What the loop keeps: the last volume per key, the sum of all *)

Lemma fold_add_pair_last pairs m o t :
  let st := fold_left add_pair pairs (m, o, t) in
  snd st = t + sum_Z (map (fun p => int_float_of_string (snd p)) pairs) /\
  snd (fst st) = match find (fun p => String.eqb (fst p) "Others") (rev pairs) with
                 | Some p => int_float_of_string (snd p)
                 | None => o
                 end /\
  forall k, Dict.get (fst (fst st)) k =
    if String.eqb k "Others" then Dict.get m k
    else match find (fun p => String.eqb (fst p) k) (rev pairs) with
         | Some p => Some (int_float_of_string (snd p))
         | None => Dict.get m k
         end.
Proof.
  cbv zeta; induction pairs as [|[k v] l IH] using rev_ind.
  - simpl; split; [lia|split; [reflexivity|]].
    intros k; destruct (String.eqb k "Others"); reflexivity.
  - rewrite fold_left_app; cbn [fold_left].
    destruct (fold_left add_pair l (m, o, t)) as [[m' o'] t'].
    cbn [fst snd] in IH; destruct IH as (Ht & Ho & Hm).
    rewrite add_pair_step, rev_unit, map_app.
    assert (Hs : forall (L : list Z) z, sum_Z (L ++ [z]) = sum_Z L + z).
    { intros L z; unfold sum_Z; induction L as [|a r IHr]; simpl; lia. }
    cbn [map].
    rewrite Hs; cbn [find fst snd].
    destruct (String.eqb k "Others") eqn:E; cbn [fst snd].
    + apply String.eqb_eq in E; subst k.
      split; [lia|split; [reflexivity|]].
      intros k0; rewrite Hm; destruct (String.eqb k0 "Others") eqn:E0; [reflexivity|].
      rewrite String.eqb_sym, E0; reflexivity.
    + split; [lia|split; [exact Ho|]].
      intros k0; rewrite dict_get_set, Hm.
      destruct (String.eqb k0 "Others") eqn:E0.
      * apply String.eqb_eq in E0; subst k0; rewrite String.eqb_sym, E; reflexivity.
      * rewrite String.eqb_sym; destruct (String.eqb k k0); reflexivity.
Qed.

Lemma marker_entry_fold m e :
  marker_entry m = Some e ->
  fold_left add_pair (findall pair_pat (ys_span (snd m))) ([], 0, 0) = (models e, others e, total e).
Proof.
  unfold marker_entry; intros Hme; destruct (chart_entry_some _ _ _ Hme) as (_ & _ & F); exact F.
Qed.

Lemma fold_totals_le pairs e :
  fold_left add_pair pairs ([], 0, 0) = (models e, others e, total e) ->
  0 <= others e /\ sum_Z (map snd (models e)) + others e <= total e.
Proof.
  intros F.
  pose proof (fold_add_pair_ok pairs ([], 0, 0)) as Hok.
  rewrite F in Hok; destruct Hok as (_ & Ho & Hle); [|split; assumption].
  unfold pair_state_ok; simpl; repeat split; [constructor|lia|lia].
Qed.

Lemma fold_totals_exact pairs e :
  fold_left add_pair pairs ([], 0, 0) = (models e, others e, total e) ->
  NoDup (map fst pairs) -> sum_Z (map snd (models e)) + others e = total e.
Proof.
  intros F Hnd.
  pose proof (fold_add_pair_exact pairs [] 0 0 Hnd (fun k _ Hk => Hk) (fun _ => eq_refl)) as Hex.
  cbv zeta in Hex; rewrite F in Hex; simpl in Hex; lia.
Qed.

(** *** Which segment is kept *)

Section Select.
Variable f : string -> list WeeklyChartEntry.

Definition keep_larger (best : list WeeklyChartEntry) (s : string) : list WeeklyChartEntry :=
  if (List.length best <? List.length (f s))%nat then f s else best.

Lemma fold_keep_larger L b :
  (exists pre s post, L = pre ++ s :: post /\
     Forall (fun s' => List.length (f s') < List.length (f s))%nat pre /\
     Forall (fun s' => List.length (f s') <= List.length (f s))%nat post /\
     (List.length b < List.length (f s))%nat /\
     fold_left keep_larger L b = f s)
  \/ (Forall (fun s' => List.length (f s') <= List.length b)%nat L /\ fold_left keep_larger L b = b).
Proof.
  revert b; induction L as [|x L IH]; intros b; simpl; [right; auto|].
  change (keep_larger b x) with
    (if (List.length b <? List.length (f x))%nat then f x else b).
  destruct (List.length b <? List.length (f x))%nat eqn:C.
  - apply Nat.ltb_lt in C.
    destruct (IH (f x)) as [(pre & s & post & HL & Hpre & Hpost & Hlt & Hf)|(Hall & Hf)].
    + left; exists (x :: pre), s, post; subst L.
      repeat split; try assumption; try reflexivity; [constructor; [lia|assumption]|lia].
    + left; exists [], x, L; simpl; repeat split; [constructor|assumption|lia|assumption].
  - apply Nat.ltb_ge in C.
    destruct (IH b) as [(pre & s & post & HL & Hpre & Hpost & Hlt & Hf)|(Hall & Hf)].
    + left; exists (x :: pre), s, post; subst L.
      repeat split; try assumption; try reflexivity; constructor; [lia|assumption].
    + right; split; [constructor; assumption|exact Hf].
Qed.

End Select.

Definition long_enough (s : string) : bool := negb (String.length s <? 1000)%nat.

Lemma fold_select_best L b :
  fold_left select_best L b = fold_left (keep_larger segment_entries) (filter long_enough L) b.
Proof.
  revert b; induction L as [|s L IH]; intros b; cbn [fold_left filter]; [reflexivity|].
  change (select_best b s) with
    (if (String.length s <? 1000)%nat then b else keep_larger segment_entries b s).
  unfold long_enough.
  destruct (String.length s <? 1000)%nat; cbn [negb fold_left]; apply IH.
Qed.

(** *** The order of the output *)

Lemma sort_by_week_sorted l :
  Sorted (fun a b => String.leb (week_start a) (week_start b) = true) (sort_by_week l).
Proof.
  unfold sort_by_week; apply sort_stable_sorted.
  - intros x y; unfold String.ltb, String.leb.
    destruct (String.compare (week_start y) (week_start x)); congruence.
  - intros x y; unfold String.ltb, String.leb.
    rewrite (String.compare_antisym (week_start x) (week_start y)).
    destruct (String.compare (week_start y) (week_start x)); simpl; congruence.
Qed.

Lemma marker_entry_slash m e :
  marker_entry m = Some e ->
  existsb (fun p => has_char "/"%char (fst p)) (findall pair_pat (ys_span (snd m))) = true.
Proof.
  unfold marker_entry; intros Hme; apply chart_entry_some in Hme.
  destruct Hme as (_ & Hd & _); exact Hd.
Qed.

Lemma segment_no_slash s :
  (forall m, In m (findall marker_pat (unescape s)) ->
     existsb (fun p => has_char "/"%char (fst p)) (findall pair_pat (ys_span (snd m))) = false) ->
  segment_entries s = [].
Proof.
  unfold segment_entries; intros H.
  destruct (filter_some (map marker_entry (findall marker_pat (unescape s)))) as [|e r] eqn:F;
    [reflexivity|exfalso].
  assert (Hin : In e (filter_some (map marker_entry (findall marker_pat (unescape s)))))
    by (rewrite F; left; reflexivity).
  destruct (in_filter_some _ _ _ Hin) as (m & Hm & Hme).
  pose proof (marker_entry_slash m e Hme) as Hd.
  rewrite (H m Hm) in Hd; discriminate Hd.
Qed.

End ChartFacts.

Module ChartClaims.
Import Regex Scraper Inputs ChartFacts.

(** C4 (counterexample): a chart entry that names the slug acme/a twice
    keeps only its second volume in [models] while [total] counts both:
    models holds 2, others 4 and total 7. *)
Lemma scrape_rankings_history_duplicate_key_total :
  match scrape_rankings_history page_duplicate_key with
  | [e] => sum_Z (map snd (models e)) + others e <> total e
  | _ => False
  end.
Proof. vm_compute; discriminate. Qed.

(** C4 (amended): every emitted entry comes from an entry marker of a
    script segment of the page; its others bucket is non-negative; the
    named volumes plus the others bucket never exceed the total, and they
    equal it when the keys of the entry's pairs are pairwise distinct.
    On repeated keys the entry keeps, for each slug other than Others, the
    volume of the last pair with that key, and in [others] the volume of
    the last Others pair (0 when there is none), while [total] is the sum
    of the volumes of all the pairs; [models] never holds the key Others. *)
Theorem scrape_rankings_history_totals html e :
  In e (scrape_rankings_history html) ->
  exists s m,
    In s (findall script_pat html) /\ In m (findall marker_pat (unescape s)) /\
    marker_entry m = Some e /\
    0 <= others e /\
    sum_Z (map snd (models e)) + others e <= total e /\
    (NoDup (map fst (findall pair_pat (ys_span (snd m)))) ->
     sum_Z (map snd (models e)) + others e = total e) /\
    total e = sum_Z (map (fun p => int_float_of_string (snd p))
                         (findall pair_pat (ys_span (snd m)))) /\
    others e = match find (fun p => String.eqb (fst p) "Others")
                          (rev (findall pair_pat (ys_span (snd m)))) with
               | Some p => int_float_of_string (snd p)
               | None => 0
               end /\
    (forall k, Dict.get (models e) k =
       if String.eqb k "Others" then None
       else match find (fun p => String.eqb (fst p) k)
                       (rev (findall pair_pat (ys_span (snd m)))) with
            | Some p => Some (int_float_of_string (snd p))
            | None => None
            end).
Proof.
  intros H; destruct (scrape_in html e H) as (s & m & Hs & Hm & Hme).
  pose proof (marker_entry_fold m e Hme) as F.
  destruct (fold_totals_le _ _ F) as [Ho Hle].
  pose proof (fold_add_pair_last (findall pair_pat (ys_span (snd m))) [] 0 0) as L.
  assert (F' : fold_left add_pair (findall pair_pat (ys_span (snd m))) (([] : Dict.t Z), 0, 0)
               = (models e, others e, total e)) by exact F.
  cbv zeta in L; rewrite F' in L; cbn [fst snd] in L; destruct L as (Lt & Lo & Lm).
  exists s, m; split; [exact Hs|]; split; [exact Hm|]; split; [exact Hme|].
  split; [exact Ho|]; split; [exact Hle|].
  split; [intros Hnd; exact (fold_totals_exact _ _ F Hnd)|].
  split; [rewrite Lt; apply Z.add_0_l|]; split; [exact Lo|].
  intros k; rewrite Lm; cbn [Dict.get]; destruct (String.eqb k "Others"); reflexivity.
Qed.

Lemma scrape_rankings_history_totals_witness :
  let e := mk_week "2025-01-06" [("acme/b", 3)] 0 3 in
  In e (scrape_rankings_history page_short_and_long) /\
  exists s m,
    In s (findall script_pat page_short_and_long) /\ In m (findall marker_pat (unescape s)) /\
    marker_entry m = Some e /\
    0 <= others e /\
    sum_Z (map snd (models e)) + others e <= total e /\
    (NoDup (map fst (findall pair_pat (ys_span (snd m)))) ->
     sum_Z (map snd (models e)) + others e = total e) /\
    total e = sum_Z (map (fun p => int_float_of_string (snd p))
                         (findall pair_pat (ys_span (snd m)))) /\
    others e = match find (fun p => String.eqb (fst p) "Others")
                          (rev (findall pair_pat (ys_span (snd m)))) with
               | Some p => int_float_of_string (snd p)
               | None => 0
               end /\
    (forall k, Dict.get (models e) k =
       if String.eqb k "Others" then None
       else match find (fun p => String.eqb (fst p) k)
                       (rev (findall pair_pat (ys_span (snd m)))) with
            | Some p => Some (int_float_of_string (snd p))
            | None => None
            end).
Proof.
  cbv zeta.
  split; [vm_compute; left; reflexivity|].
  apply (scrape_rankings_history_totals page_short_and_long).
  vm_compute; left; reflexivity.
Defined.

(** C5: the segments under 1000 characters are discarded first; among
    the remaining script segments, in page order, the output is the sorted entry list of the first segment
    with the greatest positive number of accepted entries (earlier ones
    have strictly fewer, later ones at most as many), or empty when none of
    them has an accepted entry; a segment none of whose entries has a pair
    key with a slash has no accepted entry; and the output is sorted
    ascending by [week_start]. *)
Theorem scrape_rankings_history_selection html :
  let L := filter long_enough (findall script_pat html) in
  ((exists pre s post, L = pre ++ s :: post /\
      Forall (fun s' => List.length (segment_entries s') < List.length (segment_entries s))%nat pre /\
      Forall (fun s' => List.length (segment_entries s') <= List.length (segment_entries s))%nat post /\
      (0 < List.length (segment_entries s))%nat /\
      scrape_rankings_history html = sort_by_week (segment_entries s))
   \/ (Forall (fun s => segment_entries s = []) L /\ scrape_rankings_history html = [])) /\
  (forall s, (forall m, In m (findall marker_pat (unescape s)) ->
      existsb (fun p => has_char "/"%char (fst p)) (findall pair_pat (ys_span (snd m))) = false) ->
    segment_entries s = []) /\
  Sorted (fun a b => String.leb (week_start a) (week_start b) = true) (scrape_rankings_history html).
Proof.
  cbv zeta; split; [|split; [exact segment_no_slash|apply sort_by_week_sorted]].
  unfold scrape_rankings_history; rewrite fold_select_best.
  destruct (fold_keep_larger segment_entries (filter long_enough (findall script_pat html)) [])
    as [(pre & s & post & HL & Hpre & Hpost & Hlt & Hf)|(Hall & Hf)].
  - left; exists pre, s, post; rewrite Hf; simpl in Hlt; repeat split; assumption.
  - right; rewrite Hf; split; [|reflexivity].
    eapply Forall_impl; [|exact Hall].
    intros s' Hs'; simpl in Hs'; apply length_zero_iff_nil; lia.
Qed.

End ChartClaims.

(** * Further properties of the code *)

(** ** Rounding half to even *)
Module RoundFacts.

Lemma round_half_even_compat x y : (x == y)%Q -> round_half_even x = round_half_even y.
Proof.
  intros H; unfold round_half_even.
  rewrite (Qfloor_comp x y H).
  assert (E : ((x - inject_Z (Qfloor y)) ?= 1 # 2)%Q = ((y - inject_Z (Qfloor y)) ?= 1 # 2)%Q).
  { apply Qcompare_comp; [rewrite H|]; reflexivity. }
  rewrite E; reflexivity.
Qed.

End RoundFacts.

(** ** RevenueReconciler: counts, breakdown, unpriced models, ratios *)
Module CalculatorMoreFacts.
Import Calculator CalculatorFacts.

Lemma fold_counts a p ms acc :
  paid_count (fold_left (loop_body a p) ms acc) + free_count (fold_left (loop_body a p) ms acc)
    = paid_count acc + free_count acc + Z.of_nat (List.length ms) /\
  paid_count acc <= paid_count (fold_left (loop_body a p) ms acc) /\
  free_count acc <= free_count (fold_left (loop_body a p) ms acc).
Proof.
  revert acc; induction ms as [|m ms IH]; intros acc; simpl; [lia|].
  destruct (IH (loop_body a p acc m)) as (H1 & H2 & H3).
  unfold loop_body in *; destruct (model_step a p m) as [r v]; simpl in *.
  destruct (RevenueRecord.is_free r); simpl in *; lia.
Qed.

Lemma model_step_fields a p m :
  let act := Dict.get_default a (Ranked.slug m) Activity.zero in
  let r := fst (model_step a p m) in
  RevenueRecord.slug r = Ranked.slug m /\
  RevenueRecord.prompt_tokens r = Activity.prompt_tokens act /\
  RevenueRecord.completion_tokens r = Activity.completion_tokens act /\
  RevenueRecord.reasoning_tokens r = Activity.reasoning_tokens act /\
  RevenueRecord.cached_tokens r = Activity.cached_tokens act.
Proof. unfold model_step; cbv zeta; case_ifs; repeat split. Qed.

Lemma fold_agg a p ms acc :
  let act m := Dict.get_default a (Ranked.slug m) Activity.zero in
  let acc' := fold_left (loop_body a p) ms acc in
  agg_prompt acc' = agg_prompt acc + sum_Z (map (fun m => Activity.prompt_tokens (act m)) ms) /\
  agg_completion acc' = agg_completion acc + sum_Z (map (fun m => Activity.completion_tokens (act m)) ms) /\
  agg_reasoning acc' = agg_reasoning acc + sum_Z (map (fun m => Activity.reasoning_tokens (act m)) ms) /\
  agg_cached acc' = agg_cached acc + sum_Z (map (fun m => Activity.cached_tokens (act m)) ms).
Proof.
  cbv zeta; revert acc; induction ms as [|m ms IH]; intros acc; simpl; [unfold sum_Z; simpl; lia|].
  destruct (IH (loop_body a p acc m)) as (H1 & H2 & H3 & H4).
  rewrite H1, H2, H3, H4.
  pose proof (model_step_fields a p m) as F; cbv zeta in F.
  unfold loop_body; destruct (model_step a p m) as [r v]; simpl in *.
  destruct F as (_ & F1 & F2 & F3 & F4).
  unfold sum_Z; simpl; fold (sum_Z (map (fun m => Activity.prompt_tokens (Dict.get_default a (Ranked.slug m) Activity.zero)) ms)).
  lia.
Qed.

Lemma in_report_models a p ms rec :
  In rec (Report.models (calculate_revenue ms a p)) <->
  exists m, In m ms /\ rec = fst (model_step a p m).
Proof.
  unfold calculate_revenue, sort_by_revenue_desc; cbn [Report.models].
  destruct (fold_loop_body a p ms acc0) as (H1 & _ & _).
  rewrite H1; simpl.
  split.
  - intros H; apply (Permutation_in _ (sort_stable_perm _ _)) in H.
    apply in_map_iff in H; destruct H as (m & E & Hm); exists m; auto.
  - intros (m & Hm & E); apply (Permutation_in _ (Permutation_sym (sort_stable_perm _ _))).
    apply in_map_iff; exists m; auto.
Qed.

Lemma py_round_zero x n : (x == 0)%Q -> (py_round x n == 0)%Q.
Proof.
  intros H; unfold py_round.
  rewrite (RoundFacts.round_half_even_compat _ 0) by (rewrite H; reflexivity).
  reflexivity.
Qed.

End CalculatorMoreFacts.

Module CalculatorExtras.
Import Calculator CalculatorFacts CalculatorMoreFacts MoreInputs.

(** X1 ([calculate_revenue]): the report lists one record per ranked
    model, and every model is counted either as paid or as free: the
    paid and free counts are non-negative and add up to the number of
    models. *)
Theorem calculate_revenue_model_counts rankings activities pricing :
  let r := calculate_revenue rankings activities pricing in
  Report.total_models r = Z.of_nat (List.length rankings) /\
  Report.paid_models r + Report.free_models r = Report.total_models r /\
  0 <= Report.paid_models r /\ 0 <= Report.free_models r.
Proof.
  cbv zeta; unfold calculate_revenue, sort_by_revenue_desc.
  cbn [Report.total_models Report.paid_models Report.free_models].
  rewrite (Permutation_length (sort_stable_perm _ _)).
  destruct (fold_loop_body activities pricing rankings acc0) as (H1 & _ & _).
  rewrite H1, length_app, length_map.
  destruct (fold_counts activities pricing rankings acc0) as (C1 & C2 & C3).
  simpl in *; lia.
Qed.

(** X2 ([calculate_revenue]): each field of the token breakdown is the
    sum over the ranked models of that field of the model's activity, a
    model without activity counting 0. *)
Theorem calculate_revenue_token_breakdown rankings activities pricing :
  let r := calculate_revenue rankings activities pricing in
  let act m := Dict.get_default activities (Ranked.slug m) Activity.zero in
  Report.breakdown_prompt_tokens r = sum_Z (map (fun m => Activity.prompt_tokens (act m)) rankings) /\
  Report.breakdown_completion_tokens r = sum_Z (map (fun m => Activity.completion_tokens (act m)) rankings) /\
  Report.breakdown_reasoning_tokens r = sum_Z (map (fun m => Activity.reasoning_tokens (act m)) rankings) /\
  Report.breakdown_cached_tokens r = sum_Z (map (fun m => Activity.cached_tokens (act m)) rankings).
Proof.
  cbv zeta; unfold calculate_revenue.
  cbn [Report.breakdown_prompt_tokens Report.breakdown_completion_tokens
       Report.breakdown_reasoning_tokens Report.breakdown_cached_tokens].
  destruct (fold_agg activities pricing rankings acc0) as (H1 & H2 & H3 & H4).
  rewrite H1, H2, H3, H4; cbn [acc0 agg_prompt agg_completion agg_reasoning agg_cached].
  repeat split.
Qed.

(** X3 ([calculate_revenue], [_find_pricing]): a model for which no price
    is found is reported as free, with all four prices 0 and an estimated
    revenue of 0, whatever its token counts. *)
Theorem calculate_revenue_unpriced_free rankings activities pricing rec :
  In rec (Report.models (calculate_revenue rankings activities pricing)) ->
  _find_pricing (RevenueRecord.slug rec) pricing = None ->
  RevenueRecord.is_free rec = true /\
  RevenueRecord.prompt_price rec = 0%Q /\ RevenueRecord.completion_price rec = 0%Q /\
  RevenueRecord.reasoning_price rec = 0%Q /\ RevenueRecord.cache_read_price rec = 0%Q /\
  (RevenueRecord.estimated_revenue rec == 0)%Q.
Proof.
  intros Hin Hf; apply in_report_models in Hin; destruct Hin as (m & _ & ->).
  destruct (model_step_fields activities pricing m) as (Hs & _); cbv zeta in Hs.
  rewrite Hs in Hf.
  unfold model_step; cbv zeta; rewrite Hf.
  case_ifs; cbn [fst RevenueRecord.is_free RevenueRecord.prompt_price RevenueRecord.completion_price
    RevenueRecord.reasoning_price RevenueRecord.cache_read_price RevenueRecord.estimated_revenue];
    (split; [reflexivity|]); repeat split; apply py_round_zero; ring.
Qed.

Lemma calculate_revenue_unpriced_free_witness :
  exists rec,
    In rec (Report.models (calculate_revenue [one_model] one_activity other_pricing)) /\
    _find_pricing (RevenueRecord.slug rec) other_pricing = None /\
    RevenueRecord.is_free rec = true /\
    RevenueRecord.prompt_price rec = 0%Q /\ RevenueRecord.completion_price rec = 0%Q /\
    RevenueRecord.reasoning_price rec = 0%Q /\ RevenueRecord.cache_read_price rec = 0%Q /\
    (RevenueRecord.estimated_revenue rec == 0)%Q.
Proof.
  exists (fst (model_step one_activity other_pricing one_model)).
  assert (Hin : In (fst (model_step one_activity other_pricing one_model))
                  (Report.models (calculate_revenue [one_model] one_activity other_pricing)))
    by (vm_compute; left; reflexivity).
  assert (Hf : _find_pricing (RevenueRecord.slug (fst (model_step one_activity other_pricing one_model)))
                 other_pricing = None) by (vm_compute; reflexivity).
  split; [exact Hin|]; split; [exact Hf|].
  exact (calculate_revenue_unpriced_free _ _ _ _ Hin Hf).
Defined.

End CalculatorExtras.

(** ** Price lookup: [_slug_similarity], [_find_pricing], [fetch_model_pricing] *)
Module LookupFacts.
Import Calculator Api.

Lemma existsb_eqb_in x l : existsb (String.eqb x) l = true <-> In x l.
Proof.
  rewrite existsb_exists; split.
  - intros (y & Hy & E); apply String.eqb_eq in E; subst; exact Hy.
  - intros H; exists x; split; [exact H|apply String.eqb_refl].
Qed.

Lemma slug_parts_nodup a : NoDup (slug_parts a).
Proof. unfold slug_parts; apply NoDup_nodup. Qed.

Lemma inter_length A B : NoDup A -> NoDup B ->
  List.length (filter (fun x => existsb (String.eqb x) B) A)
  = List.length (filter (fun x => existsb (String.eqb x) A) B).
Proof.
  intros HA HB; apply Permutation_length, NoDup_Permutation; try (apply NoDup_filter; assumption).
  intros x; rewrite !filter_In, !existsb_eqb_in; tauto.
Qed.

Lemma inter_le A B : NoDup A ->
  (List.length (filter (fun x => existsb (String.eqb x) B) A) <= List.length B)%nat.
Proof.
  intros HA; apply NoDup_incl_length; [apply NoDup_filter; exact HA|].
  intros x Hx; apply filter_In in Hx; apply existsb_eqb_in; tauto.
Qed.

Lemma scan_pricing_spec slug items :
  match scan_pricing slug items with
  | Some v =>
      exists pre key post, items = pre ++ (key, v) :: post /\
        String.prefix (split_head "/"%char slug ++ "/") key = true /\
        (7 # 10 < _slug_similarity slug key)%Q /\
        (forall k' v', In (k', v') pre ->
           String.prefix (split_head "/"%char slug ++ "/") k' = true ->
           (_slug_similarity slug k' <= 7 # 10)%Q)
  | None =>
      forall key v, In (key, v) items ->
        String.prefix (split_head "/"%char slug ++ "/") key = true ->
        (_slug_similarity slug key <= 7 # 10)%Q
  end.
Proof.
  induction items as [|[key v] items IH]; simpl; [intros _ _ []|].
  destruct (String.prefix _ key) eqn:P; simpl.
  - destruct (Qle_bool (_slug_similarity slug key) (7 # 10)) eqn:L; simpl.
    + apply Qle_bool_iff in L.
      destruct (scan_pricing slug items) as [w|].
      * destruct IH as (pre & k & post & E & P' & S & B).
        exists ((key, v) :: pre), k, post; subst items; repeat split; try assumption.
        intros k' v' [H|H] Hp; [injection H as <- <-; exact L|exact (B _ _ H Hp)].
      * intros k' v' [H|H] Hp; [injection H as <- <-; exact L|exact (IH _ _ H Hp)].
    + exists [], key, items; repeat split; try assumption.
      * apply Qnot_le_lt; intros H; apply Qle_bool_iff in H; congruence.
      * intros k' v' [].
  - destruct (scan_pricing slug items) as [w|].
    + destruct IH as (pre & k & post & E & P' & S & B).
      exists ((key, v) :: pre), k, post; subst items; repeat split; try assumption.
      intros k' v' [H|H] Hp; [injection H as <- <-; congruence|exact (B _ _ H Hp)].
    + intros k' v' [H|H] Hp; [injection H as <- <-; congruence|exact (IH _ _ H Hp)].
Qed.

Lemma index_model_get pf M x k :
  k <> EmptyString ->
  Dict.get (index_model pf M x) k =
  if String.eqb k (Dict.get_default (attrs x) "id" EmptyString)
     || String.eqb k (Dict.get_default (attrs x) "canonical_slug" EmptyString)
  then Some (build_entry pf x) else Dict.get M k.
Proof.
  intros Hk.
  assert (Hk' : String.eqb k EmptyString = false) by (apply String.eqb_neq; exact Hk).
  unfold index_model; cbv zeta.
  destruct (Dict.get_default (attrs x) "canonical_slug" EmptyString) as [|c cs];
    destruct (Dict.get_default (attrs x) "id" EmptyString) as [|i is];
    rewrite ?dict_get_set, ?Hk'; simpl; try reflexivity.
  - destruct (String.eqb k (String i is)); reflexivity.
  - destruct (String.eqb k (String i is)); reflexivity.
Qed.

Lemma fold_index_get pf data M k :
  k <> EmptyString ->
  Dict.get (fold_left (index_model pf) data M) k =
  match find (fun m => String.eqb k (Dict.get_default (attrs m) "id" EmptyString)
                       || String.eqb k (Dict.get_default (attrs m) "canonical_slug" EmptyString))
             (rev data) with
  | Some m => Some (build_entry pf m)
  | None => Dict.get M k
  end.
Proof.
  intros Hk; induction data as [|x data IH] using rev_ind; [reflexivity|].
  rewrite fold_left_app; cbn [fold_left]; rewrite index_model_get by exact Hk.
  rewrite rev_app_distr; cbn [rev app find].
  destruct (_ || _); [reflexivity|exact IH].
Qed.

Lemma fold_index_empty pf data M :
  Dict.get (fold_left (index_model pf) data M) EmptyString = Dict.get M EmptyString.
Proof.
  revert M; induction data as [|x data IH]; intros M; [reflexivity|].
  cbn [fold_left]; rewrite IH; unfold index_model; cbv zeta.
  destruct (Dict.get_default (attrs x) "canonical_slug" EmptyString) as [|c cs];
    destruct (Dict.get_default (attrs x) "id" EmptyString) as [|i is];
    rewrite ?dict_get_set; reflexivity.
Qed.

End LookupFacts.

Module LookupExtras.
Import Calculator Api LookupFacts.

(** X4 ([_slug_similarity]): the similarity of two slugs does not depend
    on their order and lies between 0 and 1. *)
Theorem slug_similarity_symmetric_bounded a b :
  _slug_similarity a b = _slug_similarity b a /\ (0 <= _slug_similarity a b <= 1)%Q.
Proof.
  unfold _slug_similarity.
  pose proof (slug_parts_nodup a) as NA; pose proof (slug_parts_nodup b) as NB.
  destruct (slug_parts a) as [|x A] eqn:EA; destruct (slug_parts b) as [|y B] eqn:EB;
    try (split; [reflexivity|split; unfold Qle; simpl; lia]).
  rewrite (inter_length (x :: A) (y :: B) NA NB).
  rewrite (Nat.add_comm (List.length (x :: A))).
  split; [reflexivity|].
  rewrite <- (inter_length (x :: A) (y :: B) NA NB).
  pose proof (inter_le (x :: A) (y :: B) NA) as H1.
  pose proof (filter_length_le (fun z => existsb (String.eqb z) (y :: B)) (x :: A)) as H2.
  set (i := List.length (filter _ (x :: A))) in *.
  set (la := List.length (x :: A)) in *; set (lb := List.length (y :: B)) in *.
  assert (Ha : (1 <= la)%nat) by (unfold la; simpl; lia).
  assert (Hu : (0 < inject_Z (Z.of_nat (lb + la - i)))%Q)
    by (unfold Qlt; cbn [Qnum Qden inject_Z]; lia).
  split.
  - apply Qle_shift_div_l; [exact Hu|]. unfold Qle, Qmult; cbn [Qnum Qden inject_Z]; lia.
  - apply Qle_shift_div_r; [exact Hu|]. unfold Qle, Qmult; cbn [Qnum Qden inject_Z]; lia.
Qed.

(** X5 ([_find_pricing]): a price is found by the slug itself, else by
    the slug before its first colon, else by the first key of the price
    table, in table order, that starts with the slug's author and a slash
    and has a similarity above 0.7 with the slug; when none of the three
    applies the lookup fails. *)
Theorem find_pricing_spec slug pricing :
  match _find_pricing slug pricing with
  | Some v =>
      Dict.get pricing slug = Some v \/
      (Dict.get pricing slug = None /\ Dict.get pricing (split_head ":"%char slug) = Some v) \/
      (Dict.get pricing slug = None /\ Dict.get pricing (split_head ":"%char slug) = None /\
       exists pre key post, pricing = pre ++ (key, v) :: post /\
         String.prefix (split_head "/"%char slug ++ "/") key = true /\
         (7 # 10 < _slug_similarity slug key)%Q /\
         (forall k' v', In (k', v') pre ->
            String.prefix (split_head "/"%char slug ++ "/") k' = true ->
            (_slug_similarity slug k' <= 7 # 10)%Q))
  | None =>
      Dict.get pricing slug = None /\ Dict.get pricing (split_head ":"%char slug) = None /\
      (forall key v, In (key, v) pricing ->
         String.prefix (split_head "/"%char slug ++ "/") key = true ->
         (_slug_similarity slug key <= 7 # 10)%Q)
  end.
Proof.
  unfold _find_pricing.
  destruct (Dict.get pricing slug) as [v|] eqn:E1; [left; reflexivity|].
  destruct (Dict.get pricing (split_head ":"%char slug)) as [v|] eqn:E2;
    [right; left; split; reflexivity|].
  pose proof (scan_pricing_spec slug pricing) as S.
  destruct (scan_pricing slug pricing) as [v|].
  - right; right; split; [reflexivity|]; split; [reflexivity|exact S].
  - split; [reflexivity|]; split; [reflexivity|exact S].
Qed.

(** X6 ([fetch_model_pricing]): the price table never has the empty key;
    any other key is present exactly when some model of the feed has it
    as its id or as its canonical slug, and its entry is the one built
    from the last such model of the feed. *)
Theorem fetch_model_pricing_lookup py_float data k :
  Dict.get (fetch_model_pricing py_float data) k =
  if String.eqb k EmptyString then None
  else option_map (build_entry py_float)
         (find (fun m => String.eqb k (Dict.get_default (attrs m) "id" EmptyString)
                         || String.eqb k (Dict.get_default (attrs m) "canonical_slug" EmptyString))
               (rev data)).
Proof.
  unfold fetch_model_pricing.
  destruct (String.eqb k EmptyString) eqn:E.
  - apply String.eqb_eq in E; subst k; rewrite fold_index_empty; reflexivity.
  - apply String.eqb_neq in E; rewrite fold_index_get by exact E.
    destruct (find _ (rev data)); reflexivity.
Qed.

End LookupExtras.

(** ** Dictionary keys *)
Module KeyFacts.

Lemma set_has_key {V} (d : Dict.t V) k v : In k (map fst (Dict.set d k v)).
Proof.
  induction d as [|[k0 v0] r IH]; simpl; [left; reflexivity|].
  destruct (String.eqb k k0) eqn:E; simpl.
  - apply String.eqb_eq in E; left; symmetry; exact E.
  - right; exact IH.
Qed.

Lemma set_keeps_key {V} (d : Dict.t V) k v x :
  In x (map fst d) -> In x (map fst (Dict.set d k v)).
Proof.
  induction d as [|[k0 v0] r IH]; simpl; [intros []|].
  destruct (String.eqb k k0); simpl; intros [H|H]; auto.
Qed.

Lemma set_keys_iff {V} (d : Dict.t V) k v x :
  In x (map fst (Dict.set d k v)) <-> x = k \/ In x (map fst d).
Proof.
  split; [apply DailyFacts.set_keys_in|].
  intros [->|H]; [apply set_has_key|apply set_keeps_key; exact H].
Qed.

Lemma set_existing_keys {V} (d : Dict.t V) k v :
  In k (map fst d) -> map fst (Dict.set d k v) = map fst d.
Proof.
  induction d as [|[k0 v0] r IH]; simpl; [intros []|].
  destruct (String.eqb k k0) eqn:E; simpl; [reflexivity|].
  intros [H|H]; [subst; rewrite String.eqb_refl in E; discriminate|].
  rewrite IH by exact H; reflexivity.
Qed.

Lemma get_some_key {V} (d : Dict.t V) k v : Dict.get d k = Some v -> In k (map fst d).
Proof.
  induction d as [|[k0 v0] r IH]; simpl; [discriminate|].
  destruct (String.eqb k k0) eqn:E.
  - apply String.eqb_eq in E; intros _; left; symmetry; exact E.
  - intros H; right; exact (IH H).
Qed.

Lemma sum_nonneg (m : Dict.t Z) : Forall (fun p => 0 <= snd p) m -> 0 <= sum_Z (map snd m).
Proof.
  unfold sum_Z; induction m as [|[k v] r IH]; simpl; intros H; [lia|].
  inversion H as [|? ? H0 Hr]; subst; simpl in H0; specialize (IH Hr); lia.
Qed.

End KeyFacts.

(** ** WindowAggregator: the dates summed *)
Module WindowMoreFacts.
Import Window.

Lemma map_seq_nodup e s n : NoDup (map (fun i => e - Z.of_nat i) (seq s n)).
Proof.
  revert s; induction n as [|n IH]; intros s; simpl; [constructor|].
  constructor; [|apply IH].
  intros Hin; apply in_map_iff in Hin; destruct Hin as (i & E & Hi); apply in_seq in Hi; lia.
Qed.

Lemma candidate_range e days skip today d :
  In d (candidate_loop e days skip today) -> e - days < d <= e.
Proof.
  unfold candidate_loop; intros H; apply filter_In in H; destruct H as [H _].
  apply in_map_iff in H; destruct H as (i & <- & Hi); apply in_seq in Hi; lia.
Qed.

Lemma candidate_nodup e days skip today : NoDup (candidate_loop e days skip today).
Proof. unfold candidate_loop; apply NoDup_filter, map_seq_nodup. Qed.

Lemma candidate_length e days skip today :
  (List.length (candidate_loop e days skip today) <= Z.to_nat days)%nat.
Proof.
  unfold candidate_loop; etransitivity; [apply filter_length_le|].
  rewrite length_map, length_seq; lia.
Qed.

End WindowMoreFacts.

Module WindowExtras.
Import Window WindowMoreFacts.

(** X7 ([sum_daily_window]): the dates the window sums are pairwise
    distinct, so no day is counted twice; they all lie between
    [end_date - days] and [end_date]; and there are at most [days] of
    them. *)
Theorem dates_to_sum_distinct end_ days skip today :
  let ds := dates_to_sum end_ days skip today in
  NoDup ds /\ (forall d, In d ds -> end_ - days <= d <= end_) /\
  Z.of_nat (List.length ds) <= Z.max days 0.
Proof.
  cbv zeta; unfold dates_to_sum; cbv zeta.
  pose proof (candidate_nodup end_ days skip today) as N.
  pose proof (candidate_range end_ days skip today) as R.
  pose proof (candidate_length end_ days skip today) as L.
  destruct (_ && _ && _) eqn:C.
  - apply andb_true_iff in C; destruct C as [_ C]; apply Z.ltb_lt in C.
    split; [|split].
    + apply (Permutation_NoDup (Permutation_cons_append _ _)). constructor; [|exact N].
      intros H; apply R in H; lia.
    + intros d Hd; apply in_app_or in Hd; destruct Hd as [Hd|[<-|[]]]; [apply R in Hd; lia|lia].
    + rewrite length_app; simpl; lia.
  - split; [exact N|split]; [intros d Hd; apply R in Hd; lia|lia].
Qed.

End WindowExtras.

(** ** DailyAnalyticsExtractor: the dates of the result *)
Module DailyMoreFacts.
Import Regex Scraper KeyFacts.

Lemma merge_cached_keys m e : map fst (merge_cached m e) = map fst m.
Proof.
  unfold merge_cached; destruct (Dict.get m (fst e)) eqn:G; [|reflexivity].
  apply set_existing_keys, (get_some_key _ _ _ G).
Qed.

Lemma fold_merge_keys CB T : map fst (fold_left merge_cached CB T) = map fst T.
Proof.
  revert T; induction CB as [|c CB IH]; intros T; simpl; [reflexivity|].
  rewrite IH; apply merge_cached_keys.
Qed.

Lemma fold_add_daily_keys E m x :
  In x (map fst (fold_left add_daily E m)) <->
  In x (map fst m) \/ exists e, In e E /\ m_date e = x.
Proof.
  revert m; induction E as [|e E IH]; intros m; simpl.
  - split; [left; exact H|intros [H|(e & [] & _)]; exact H].
  - rewrite IH; unfold add_daily; rewrite set_keys_iff.
    split.
    + intros [[H|H]|(e' & H1 & H2)].
      * right; exists e; auto.
      * left; exact H.
      * right; exists e'; auto.
    + intros [H|(e' & [H1|H1] & H2)].
      * left; right; exact H.
      * subst; left; left; reflexivity.
      * right; exists e'; auto.
Qed.

Lemma fold_add_daily_nodup E m :
  NoDup (map fst m) -> NoDup (map fst (fold_left add_daily E m)).
Proof.
  revert m; induction E as [|e E IH]; intros m H; simpl; [exact H|].
  apply IH; unfold add_daily; apply DailyFacts.set_nodup; exact H.
Qed.

End DailyMoreFacts.

Module DailyExtras.
Import Regex Scraper DailyMoreFacts.

(** X8 ([_extract_daily_data]): the result has one record per date and
    its dates are exactly the dates of the first-pattern (per-variant)
    entries of the page; a date that only has a cached-tokens entry never
    appears. *)
Theorem extract_daily_data_keys html :
  let keys := map fst (_extract_daily_data html) in
  NoDup keys /\
  (forall d, In d keys <-> exists e, In e (findall daily_pat html) /\ m_date e = d).
Proof.
  cbv zeta; unfold _extract_daily_data; cbv zeta.
  destruct (findall daily_pat html) as [|e0 E] eqn:F.
  - split; [constructor|]; intros d; split; [intros []|intros (e & [] & _)].
  - rewrite fold_merge_keys; split.
    + apply fold_add_daily_nodup; constructor.
    + intros d; rewrite fold_add_daily_keys; simpl.
      split; [intros [[]|H]; exact H|intros H; right; exact H].
Qed.

End DailyExtras.

(** ** ChartExtractor: the models of an entry *)
Module ChartMoreFacts.
Import Regex Scraper ChartFacts KeyFacts.

Lemma fold_add_pair_keys pairs m o t x :
  In x (map fst (fst (fst (fold_left add_pair pairs (m, o, t))))) <->
  In x (map fst m) \/ (x <> "Others" /\ In x (map fst pairs)).
Proof.
  revert m o t; induction pairs as [|[k v] pairs IH]; intros m o t; cbn [fold_left].
  - simpl; split; [intros H; left; exact H|intros [H|[_ []]]; exact H].
  - rewrite add_pair_step.
    destruct (String.eqb k "Others") eqn:E.
    + apply String.eqb_eq in E; subst k.
      rewrite IH; simpl; split.
      * intros [H|[Hn H]]; [left; exact H|right; split; [exact Hn|right; exact H]].
      * intros [H|[Hn [H|H]]]; [left; exact H|congruence|right; split; assumption].
    + apply String.eqb_neq in E.
      rewrite IH, set_keys_iff; simpl; split.
      * intros [[H|H]|[Hn H]]; [subst; right; split; [exact E|left; reflexivity]|left; exact H|].
        right; split; [exact Hn|right; exact H].
      * intros [H|[Hn [H|H]]]; [left; right; exact H|left; left; symmetry; exact H|].
        right; split; assumption.
Qed.

Lemma fold_add_pair_nodup pairs m o t :
  NoDup (map fst m) -> NoDup (map fst (fst (fst (fold_left add_pair pairs (m, o, t))))).
Proof.
  revert m o t; induction pairs as [|[k v] pairs IH]; intros m o t H; cbn [fold_left]; [exact H|].
  rewrite add_pair_step; destruct (String.eqb k "Others"); apply IH;
    [exact H|apply DailyFacts.set_nodup; exact H].
Qed.

Lemma has_char_others : has_char "/"%char "Others" = false.
Proof. reflexivity. Qed.

End ChartMoreFacts.

Module ChartExtras.
Import Regex Scraper ChartFacts KeyFacts ChartMoreFacts.

(** X9 ([scrape_rankings_history]): in every emitted entry the models
    dict has no repeated key, has no key ["Others"], has at least one
    key containing a slash, and holds no negative volume; the total is
    not negative. *)
Theorem scrape_rankings_history_entry_models html e :
  In e (scrape_rankings_history html) ->
  NoDup (map fst (models e)) /\ ~ In "Others" (map fst (models e)) /\
  (exists k, In k (map fst (models e)) /\ has_char "/"%char k = true) /\
  Forall (fun kv => 0 <= snd kv) (models e) /\ 0 <= total e.
Proof.
  intros H; destruct (scrape_in html e H) as (s & m & _ & _ & Hme).
  pose proof (marker_entry_slash m e Hme) as Hs.
  pose proof (marker_entry_fold m e Hme) as F.
  set (pairs := findall pair_pat (ys_span (snd m))) in *.
  pose proof (fold_add_pair_ok pairs ([], 0, 0)) as Hok.
  pose proof (fold_add_pair_nodup pairs [] 0 0 (NoDup_nil _)) as Hnd.
  pose proof (fold_add_pair_keys pairs [] 0 0) as Hk.
  rewrite F in Hok, Hnd; cbn [fst] in Hnd.
  assert (Hk' : forall x, In x (map fst (models e)) <->
                  In x (map fst (@nil (string * Z))) \/ (x <> "Others" /\ In x (map fst pairs))).
  { intros x; change (models e) with (fst (fst (models e, others e, total e))).
    rewrite <- F; exact (Hk x). }
  clear Hk; rename Hk' into Hk.
  destruct Hok as (Hf & Ho & Hle); [unfold pair_state_ok; simpl; repeat split; [constructor|lia|lia]|].
  cbn [fst snd] in Hf, Ho, Hle.
  split; [exact Hnd|]; split; [|split; [|split; [exact Hf|]]].
  - intros Hin; apply Hk in Hin; destruct Hin as [[]|[Hn _]]; apply Hn; reflexivity.
  - apply existsb_exists in Hs; destruct Hs as ([k v] & Hin & Hkv); cbn [fst] in Hkv.
    exists k; split; [|exact Hkv].
    apply Hk; right; split.
    + intros ->; rewrite has_char_others in Hkv; discriminate.
    + apply in_map_iff; exists (k, v); auto.
  - pose proof (sum_nonneg _ Hf); lia.
Qed.

Lemma scrape_rankings_history_entry_models_witness :
  In (mk_week "2025-01-06" [("acme/b", 3)] 0 3) (scrape_rankings_history Inputs.page_short_and_long) /\
  (NoDup (map fst (models (mk_week "2025-01-06" [("acme/b", 3)] 0 3))) /\
   ~ In "Others" (map fst (models (mk_week "2025-01-06" [("acme/b", 3)] 0 3))) /\
   (exists k, In k (map fst (models (mk_week "2025-01-06" [("acme/b", 3)] 0 3))) /\
              has_char "/"%char k = true) /\
   Forall (fun kv => 0 <= snd kv) (models (mk_week "2025-01-06" [("acme/b", 3)] 0 3)) /\
   0 <= total (mk_week "2025-01-06" [("acme/b", 3)] 0 3)).
Proof.
  assert (Hin : In (mk_week "2025-01-06" [("acme/b", 3)] 0 3)
                   (scrape_rankings_history Inputs.page_short_and_long))
    by (vm_compute; left; reflexivity).
  split; [exact Hin|].
  exact (scrape_rankings_history_entry_models _ _ Hin).
Defined.

End ChartExtras.

(** ** parse_token_count: letter case, the G suffix, exact counts, errors *)
Module ParseFacts.
Import Regex Text ScraperPages Observe.

Ltac all_chars c := destruct c as [[] [] [] [] [] [] [] []].

Lemma append_empty_r s : (s ++ EmptyString)%string = s.
Proof. induction s as [|c s IH]; simpl; [reflexivity|now rewrite IH]. Qed.

Lemma any_char_app f s t : any_char f (s ++ t) = any_char f s || any_char f t.
Proof. induction s as [|c s IH]; simpl; [reflexivity|now rewrite IH, orb_assoc]. Qed.

Lemma any_char_impl (f g : ascii -> bool) s :
  (forall c, f c = true -> g c = true) -> any_char g s = false -> any_char f s = false.
Proof.
  intros Hfg; induction s as [|c s IH]; simpl; [reflexivity|].
  intros H; apply orb_false_elim in H as [Hc H].
  rewrite (IH H), orb_false_r.
  destruct (f c) eqn:E; [rewrite (Hfg c E) in Hc; discriminate|reflexivity].
Qed.

(** Character facts, checked on all 256 characters. *)
Lemma space_not_num c : py_isspace c = true -> negb (is_num_char c) = true.
Proof. all_chars c; vm_compute; first [reflexivity|discriminate]. Qed.

Lemma comma_not_num c : Ascii.eqb c ","%char = true -> negb (is_num_char c) = true.
Proof. all_chars c; vm_compute; first [reflexivity|discriminate]. Qed.

Lemma num_not_digit c : negb (is_num_char c) = true -> negb (is_digit c) = true.
Proof. all_chars c; vm_compute; first [reflexivity|discriminate]. Qed.

Lemma upper_space c : py_isspace (upper_char c) = py_isspace c.
Proof. all_chars c; reflexivity. Qed.

Lemma upper_num c : is_num_char (upper_char c) = is_num_char c.
Proof. all_chars c; reflexivity. Qed.

Lemma upper_num_id c : is_num_char c = true -> upper_char c = c.
Proof. all_chars c; vm_compute; first [reflexivity|discriminate]. Qed.

Lemma upper_comma c : Ascii.eqb (upper_char c) ","%char = Ascii.eqb c ","%char.
Proof. all_chars c; reflexivity. Qed.

Lemma upper_newline c : Ascii.eqb (upper_char c) "010"%char = Ascii.eqb c "010"%char.
Proof. all_chars c; reflexivity. Qed.

Lemma upper_unit_upper c : upper_unit (upper_char c) = upper_unit c.
Proof. all_chars c; reflexivity. Qed.

Lemma upper_idem c : upper_char (upper_char c) = upper_char c.
Proof. all_chars c; reflexivity. Qed.

Lemma digit_not_dot c : is_digit c = true -> Ascii.eqb c "."%char = false.
Proof.
  intros H; destruct (Ascii.eqb_spec c "."%char) as [->|]; [discriminate H|reflexivity].
Qed.

Lemma digit_range c : is_digit c = true ->
  (0 <=? Z.of_nat (nat_of_ascii c) - 48) && (Z.of_nat (nat_of_ascii c) - 48 <=? 9) = true.
Proof.
  unfold is_digit; intros H; apply andb_true_iff in H as [H1 H2].
  apply Nat.leb_le in H1, H2.
  apply andb_true_iff; split; apply Z.leb_le; lia.
Qed.

(** Stripping, comma removal and spans. *)
Lemma lstrip_id s : any_char py_isspace s = false -> lstrip s = s.
Proof.
  destruct s as [|c s]; simpl; [reflexivity|].
  intros H; apply orb_false_elim in H as [H _]; now rewrite H.
Qed.

Lemma rstrip_id s : any_char py_isspace s = false -> rstrip s = s.
Proof.
  induction s as [|c s IH]; simpl; [reflexivity|].
  intros H; apply orb_false_elim in H as [Hc H].
  rewrite (IH H); destruct s; [now rewrite Hc|reflexivity].
Qed.

Lemma replace_char_absent c t s :
  any_char (fun x => Ascii.eqb x c) s = false -> replace_char c t s = s.
Proof.
  induction s as [|x s IH]; simpl; [reflexivity|].
  intros H; apply orb_false_elim in H as [Hx H]; now rewrite Hx, (IH H).
Qed.

Lemma prep_id s :
  any_char py_isspace s = false -> any_char (fun x => Ascii.eqb x ","%char) s = false ->
  replace_char ","%char EmptyString (py_strip s) = s.
Proof.
  intros H1 H2; unfold py_strip; rewrite (lstrip_id s H1), (rstrip_id s H1).
  exact (replace_char_absent _ _ _ H2).
Qed.

Lemma span_all f s t :
  any_char (fun c => negb (f c)) s = false ->
  span f (s ++ t) = ((s ++ fst (span f t))%string, snd (span f t)).
Proof.
  induction s as [|c s IH]; simpl; intros H; [destruct (span f t); reflexivity|].
  apply orb_false_elim in H as [Hc H]; apply negb_false_iff in Hc.
  rewrite Hc, (IH H); reflexivity.
Qed.

Lemma span_concat f s : (fst (span f s) ++ snd (span f s))%string = s.
Proof.
  induction s as [|c s IH]; simpl; [reflexivity|].
  destruct (f c); [|reflexivity].
  destruct (span f s) as [a b]; simpl in *; now rewrite IH.
Qed.

Lemma span_fst_all f s : any_char (fun c => negb (f c)) (fst (span f s)) = false.
Proof.
  induction s as [|c s IH]; simpl; [reflexivity|].
  destruct (f c) eqn:E; [|reflexivity].
  destruct (span f s) as [a b]; simpl in *; now rewrite E, IH.
Qed.

Lemma num_no_space s :
  any_char (fun c => negb (is_num_char c)) s = false -> any_char py_isspace s = false.
Proof. apply any_char_impl, space_not_num. Qed.

Lemma num_no_comma s :
  any_char (fun c => negb (is_num_char c)) s = false ->
  any_char (fun x => Ascii.eqb x ","%char) s = false.
Proof. apply any_char_impl, comma_not_num. Qed.

Lemma digits_num s :
  any_char (fun c => negb (is_digit c)) s = false ->
  any_char (fun c => negb (is_num_char c)) s = false.
Proof. apply any_char_impl, num_not_digit. Qed.

(** A non-empty numeral followed by text that does not continue it. *)
Lemma token_pat_app s t :
  s <> EmptyString -> any_char (fun c => negb (is_num_char c)) s = false ->
  fst (span is_num_char t) = EmptyString ->
  token_pat (s ++ t) =
    match snd (span py_isspace t) with
    | String c r' =>
        if upper_unit c && at_end r' then Some (s, Some c)
        else if at_end (snd (span py_isspace t)) then Some (s, None) else None
    | EmptyString => Some (s, None)
    end.
Proof.
  intros Hne Hs Ht; unfold token_pat; rewrite (span_all _ _ _ Hs).
  pose proof (span_concat is_num_char t) as Hc; rewrite Ht in Hc; simpl in Hc.
  rewrite Ht, append_empty_r, Hc.
  destruct s as [|c0 s0]; [congruence|]; reflexivity.
Qed.

Lemma multiplier_ge_1 u : 1 <= Dict.get_default multipliers u 1.
Proof.
  unfold Dict.get_default, multipliers; simpl.
  repeat match goal with |- context [String.eqb ?a ?b] => destruct (String.eqb a b) end; lia.
Qed.

(** A numeral with no suffix, or with one of the suffixes T, G, B, M,
    K. *)
Lemma parse_num_unit s u :
  s <> EmptyString -> any_char (fun c => negb (is_num_char c)) s = false ->
  In u [EmptyString; "T"; "G"; "B"; "M"; "K"] ->
  parse_token_count (s ++ u) =
    match float_of_numeral s with
    | None => None
    | Some x => Some (py_int (double_of (double_of x * inject_Z (Dict.get_default multipliers u 1))))
    end.
Proof.
  intros Hne Hs Hu.
  assert (Hsp : any_char py_isspace u = false /\ any_char (fun x => Ascii.eqb x ","%char) u = false /\
                fst (span is_num_char u) = EmptyString)
    by (simpl in Hu; repeat destruct Hu as [<-|Hu]; [..|contradiction]; repeat split; reflexivity).
  destruct Hsp as (H1 & H2 & H3).
  unfold parse_token_count.
  rewrite prep_id
    by (rewrite any_char_app, orb_false_iff; split; auto using num_no_space, num_no_comma).
  rewrite (token_pat_app s u Hne Hs H3).
  simpl in Hu; repeat destruct Hu as [<-|Hu]; [..|contradiction]; reflexivity.
Qed.

(** Upper-casing commutes with every step of the parse. *)
Lemma lstrip_upper s : lstrip (string_map upper_char s) = string_map upper_char (lstrip s).
Proof.
  induction s as [|c s IH]; simpl; [reflexivity|].
  rewrite upper_space; destruct (py_isspace c); [exact IH|reflexivity].
Qed.

Lemma rstrip_upper s : rstrip (string_map upper_char s) = string_map upper_char (rstrip s).
Proof.
  induction s as [|c s IH]; simpl; [reflexivity|].
  rewrite IH; destruct (rstrip s); simpl; [|reflexivity].
  rewrite upper_space; destruct (py_isspace c); reflexivity.
Qed.

Lemma replace_comma_upper s :
  replace_char ","%char EmptyString (string_map upper_char s)
  = string_map upper_char (replace_char ","%char EmptyString s).
Proof.
  induction s as [|c s IH]; simpl; [reflexivity|].
  rewrite upper_comma, IH; destruct (Ascii.eqb c ","%char); reflexivity.
Qed.

Lemma span_upper f s :
  (forall c, f (upper_char c) = f c) ->
  span f (string_map upper_char s)
  = (string_map upper_char (fst (span f s)), string_map upper_char (snd (span f s))).
Proof.
  intros Hf; induction s as [|c s IH]; simpl; [reflexivity|].
  rewrite Hf; destruct (f c); [|reflexivity].
  rewrite IH; destruct (span f s); reflexivity.
Qed.

Lemma upper_num_string s :
  any_char (fun c => negb (is_num_char c)) s = false -> string_map upper_char s = s.
Proof.
  induction s as [|c s IH]; simpl; [reflexivity|].
  intros H; apply orb_false_elim in H as [Hc H]; apply negb_false_iff in Hc.
  now rewrite (upper_num_id c Hc), (IH H).
Qed.

Lemma at_end_upper s : at_end (string_map upper_char s) = at_end s.
Proof.
  destruct s as [|c [|c' s]]; simpl; [reflexivity| |reflexivity].
  apply upper_newline.
Qed.

Lemma token_pat_upper s :
  token_pat (string_map upper_char s)
  = match token_pat s with
    | Some (n, g) => Some (n, option_map upper_char g)
    | None => None
    end.
Proof.
  unfold token_pat; rewrite (span_upper _ _ upper_num).
  pose proof (span_fst_all is_num_char s) as Ha.
  destruct (span is_num_char s) as [num r]; simpl in Ha |- *.
  rewrite (upper_num_string num Ha).
  destruct num as [|c0 n0]; [reflexivity|].
  rewrite (span_upper _ _ upper_space).
  destruct (snd (span py_isspace r)) as [|c r'] eqn:E; [reflexivity|].
  cbn [string_map snd]; rewrite upper_unit_upper, at_end_upper.
  replace (at_end (String (upper_char c) (string_map upper_char r'))) with (at_end (String c r'))
    by (symmetry; exact (at_end_upper (String c r'))).
  destruct (upper_unit c && at_end r'); [reflexivity|].
  destruct (at_end (String c r')); reflexivity.
Qed.

Lemma parse_upper text :
  parse_token_count (string_map upper_char text) = parse_token_count text.
Proof.
  unfold parse_token_count, py_strip.
  rewrite lstrip_upper, rstrip_upper, replace_comma_upper, token_pat_upper.
  destruct (token_pat _) as [[g1 [c|]]|]; simpl; [|reflexivity|reflexivity].
  now rewrite upper_idem.
Qed.

Lemma string_map_app f s t :
  string_map f (s ++ t) = (string_map f s ++ string_map f t)%string.
Proof. induction s as [|c s IH]; simpl; [reflexivity|now rewrite IH]. Qed.

End ParseFacts.

Module ParseNumFacts.
Import Regex Text ScraperPages Observe ParseFacts.

Lemma digits_all s : forall acc, 0 <= acc ->
  any_char (fun c => negb (is_digit c)) s = false ->
  exists v, Api.digits_value acc 1 false s = Some (v # 1) /\ 0 <= v.
Proof.
  induction s as [|c s IH]; intros acc Ha H; simpl.
  - exists acc; auto.
  - simpl in H; apply orb_false_elim in H as [Hc H]; apply negb_false_iff in Hc.
    rewrite (digit_not_dot c Hc), (digit_range c Hc).
    apply IH; [|exact H].
    unfold is_digit in Hc; apply andb_true_iff in Hc as [H1 _]; apply Nat.leb_le in H1; lia.
Qed.

(** [float()] of [[0-9.]+] raises exactly when two dots occur. *)
Lemma digits_none s : forall acc scale frac,
  any_char (fun c => negb (is_num_char c)) s = false ->
  (Api.digits_value acc scale frac s = None <->
   (2 <= count_char "."%char s + (if frac then 1 else 0))%nat).
Proof.
  induction s as [|c s IH]; intros acc scale frac H; simpl.
  - split; [discriminate|destruct frac; lia].
  - simpl in H; apply orb_false_elim in H as [Hc H]; apply negb_false_iff in Hc.
    destruct (Ascii.eqb c "."%char) eqn:Ed.
    + destruct frac; [split; [lia|reflexivity]|].
      rewrite (IH acc scale true H); lia.
    + assert (Hd : is_digit c = true)
        by (unfold is_num_char in Hc; rewrite Ed, orb_false_r in Hc; exact Hc).
      rewrite (digit_range c Hd), (IH _ _ frac H); lia.
Qed.

Lemma round_half_even_int n : round_half_even (n # 1) = n.
Proof.
  unfold round_half_even.
  assert (Hf : Qfloor (n # 1) = n) by (unfold Qfloor; apply Z.div_1_r).
  rewrite Hf.
  assert (Hc : ((n # 1) - inject_Z n ?= 1 # 2)%Q = Lt).
  { unfold Qcompare, Qminus, Qplus, Qopp, inject_Z; cbn [Qnum Qden].
    apply Z.compare_lt_iff; rewrite ?Pos2Z.inj_mul; lia. }
  now rewrite Hc.
Qed.

(** Integers up to 2^53 are doubles. *)
Lemma double_of_int z : 0 <= z <= 2 ^ 53 -> double_of (z # 1) = z # 1.
Proof.
  intros Hz.
  destruct (Z.eq_dec z 0) as [->|Hz0]; [reflexivity|].
  destruct (Z.eq_dec z (2 ^ 53)) as [->|Hz1]; [vm_compute; reflexivity|].
  assert (Hl : 0 <= Z.log2 z <= 52).
  { split; [apply Z.log2_nonneg|].
    assert (Hlt : z < 2 ^ 53) by lia.
    apply Z.log2_lt_pow2 in Hlt; lia. }
  unfold double_of; cbn [Qnum Qden].
  replace (z <=? 0) with false by (symmetry; apply Z.leb_gt; lia).
  change (Z.log2 (Z.pos 1)) with 0; rewrite Z.sub_0_r.
  assert (Hg : ge_pow2 z 1 (Z.log2 z) = true).
  { unfold ge_pow2.
    replace (Z.log2 z >=? 0) with true by (symmetry; rewrite Z.geb_leb; apply Z.leb_le; lia).
    destruct (Z.log2_spec z) as [H1 _]; [lia|].
    rewrite Z.geb_leb; apply Z.leb_le; lia. }
  rewrite Hg; unfold mul_pow2; cbn [Qnum Qden].
  replace (52 - Z.log2 z >=? 0) with true by (symmetry; rewrite Z.geb_leb; apply Z.leb_le; lia).
  rewrite round_half_even_int.
  destruct (Z.eq_dec (Z.log2 z) 52) as [E|E].
  - rewrite E; cbn -[Z.pow]; unfold inject_Z; f_equal; ring.
  - replace (Z.log2 z - 52 >=? 0) with false by (symmetry; rewrite Z.geb_leb; apply Z.leb_gt; lia).
    transitivity (Qred (z # 1)).
    + apply Qred_complete; unfold Qeq; cbn [Qnum Qden].
      rewrite Z2Pos.id by (apply Z.pow_pos_nonneg; lia); ring.
    + unfold Qred.
      pose proof (Z.ggcd_gcd z 1) as G; pose proof (Z.ggcd_correct_divisors z 1) as D.
      destruct (Z.ggcd z 1) as [g [r1 r2]]; cbn [fst snd] in *.
      rewrite Z.gcd_1_r in G; subst g; destruct D as [D1 D2].
      replace r1 with z by lia; replace r2 with 1 by lia; reflexivity.
Qed.

Lemma py_int_int z : 0 <= z -> py_int (z # 1) = z.
Proof.
  intros Hz; unfold py_int.
  replace (Qle_bool 0 (z # 1)) with true
    by (symmetry; apply Qle_bool_iff; unfold Qle; simpl; lia).
  unfold Qfloor; apply Z.div_1_r.
Qed.

Lemma double_of_nonneg q : (0 <= double_of q)%Q.
Proof.
  unfold double_of.
  destruct (Qnum q <=? 0) eqn:E; [apply Qle_refl|].
  apply Z.leb_gt in E.
  match goal with
  | |- context [round_half_even (mul_pow2 q ?k)] =>
      assert (Hm : 0 <= round_half_even (mul_pow2 q k))
        by (apply ChartFacts.round_half_even_nonneg, ChartFacts.mul_pow2_num; lia)
  end.
  destruct (_ >=? 0).
  - unfold Qle, inject_Z; cbn [Qnum Qden].
    match goal with |- context [2 ^ ?k] => pose proof (Z.pow_nonneg 2 k ltac:(lia)) end.
    nia.
  - rewrite Qred_correct; unfold Qle; cbn [Qnum Qden]; lia.
Qed.

Lemma py_int_nonneg x : (0 <= x)%Q -> 0 <= py_int x.
Proof.
  intros H; unfold py_int.
  replace (Qle_bool 0 x) with true by (symmetry; apply Qle_bool_iff; exact H).
  change 0 with (Qfloor 0); apply Qfloor_resp_le; exact H.
Qed.

Lemma parse_count_nonneg text n : parse_token_count text = Some n -> 0 <= n.
Proof.
  unfold parse_token_count.
  destruct (token_pat _) as [[g1 g2]|]; [|intros H; injection H as <-; lia].
  destruct (float_of_numeral g1); [|discriminate].
  intros H; injection H as <-.
  apply py_int_nonneg, double_of_nonneg.
Qed.

Lemma float_of_numeral_digits s :
  s <> EmptyString -> any_char (fun c => negb (is_digit c)) s = false ->
  float_of_numeral s = Some (int_of_digits s # 1) /\ 0 <= int_of_digits s.
Proof.
  intros Hne Hd.
  destruct (digits_all s 0 ltac:(lia) Hd) as (v & Hv & Hv0).
  assert (Hi : int_of_digits s = v)
    by (unfold int_of_digits, Api.decimal_float; rewrite Hv; reflexivity).
  rewrite Hi; split; [|exact Hv0].
  unfold float_of_numeral, Api.decimal_float.
  destruct s as [|c s]; [congruence|].
  simpl in Hd; apply orb_false_elim in Hd as [Hc _]; apply negb_false_iff in Hc.
  simpl any_char; rewrite Hc; exact Hv.
Qed.

End ParseNumFacts.

Module ParseExtras.
Import Regex Text ScraperPages Observe ParseFacts ParseNumFacts.

(** X10 ([parse_token_count]): the parse ignores letter case: upper-casing
    the ASCII letters of the text gives the same count, or the same
    [ValueError]. *)
Theorem parse_token_count_case_insensitive text :
  parse_token_count (string_map upper_char text) = parse_token_count text.
Proof. exact (parse_upper text). Qed.

(** X11 ([parse_token_count]): a G or g suffix after a non-empty string of
    digits and dots is accepted by the pattern but has no multiplier: the
    result is the one for the bare numeral. *)
Theorem parse_token_count_g_suffix s :
  s <> EmptyString -> any_char (fun c => negb (is_num_char c)) s = false ->
  parse_token_count (s ++ "G") = parse_token_count s /\
  parse_token_count (s ++ "g") = parse_token_count s.
Proof.
  intros Hne Hs.
  assert (HG : parse_token_count (s ++ "G") = parse_token_count s).
  { pose proof (parse_num_unit s EmptyString Hne Hs ltac:(simpl; auto)) as H0.
    rewrite append_empty_r in H0; rewrite H0.
    rewrite (parse_num_unit s "G" Hne Hs) by (simpl; auto 10).
    reflexivity. }
  split; [exact HG|].
  rewrite <- (parse_upper (s ++ "g")), string_map_app, (upper_num_string s Hs).
  exact HG.
Qed.

Lemma parse_token_count_g_suffix_witness :
  ("1.5" <> EmptyString /\ any_char (fun c => negb (is_num_char c)) "1.5" = false) /\
  (parse_token_count ("1.5" ++ "G") = parse_token_count "1.5" /\
   parse_token_count ("1.5" ++ "g") = parse_token_count "1.5").
Proof.
  split; [split; [discriminate|reflexivity]|].
  apply (parse_token_count_g_suffix "1.5"); [discriminate|reflexivity].
Defined.

(** X12 ([parse_token_count]): for a non-empty string of decimal digits
    followed by nothing or by one of the suffixes K, M, B, T, the result
    is exactly the integer value of the digits times the suffix's
    multiplier, as long as that product is at most 2^53. *)
Theorem parse_token_count_exact s u :
  s <> EmptyString -> any_char (fun c => negb (is_digit c)) s = false ->
  In u [EmptyString; "K"; "M"; "B"; "T"] ->
  int_of_digits s * Dict.get_default multipliers u 1 <= 2 ^ 53 ->
  parse_token_count (s ++ u) = Some (int_of_digits s * Dict.get_default multipliers u 1).
Proof.
  intros Hne Hd Hu Hle.
  destruct (float_of_numeral_digits s Hne Hd) as [Hf Hv0].
  pose proof (multiplier_ge_1 u) as Hm.
  rewrite (parse_num_unit s u Hne (digits_num s Hd)) by (simpl in Hu |- *; tauto).
  rewrite Hf.
  set (v := int_of_digits s) in *; set (m := Dict.get_default multipliers u 1) in *.
  rewrite double_of_int by nia.
  change ((v # 1) * inject_Z m)%Q with ((v * m) # 1)%Q.
  rewrite double_of_int by nia.
  rewrite py_int_int by nia.
  reflexivity.
Qed.

Lemma parse_token_count_exact_witness :
  ("13" <> EmptyString /\ any_char (fun c => negb (is_digit c)) "13" = false /\
   In "K" [EmptyString; "K"; "M"; "B"; "T"] /\
   int_of_digits "13" * Dict.get_default multipliers "K" 1 <= 2 ^ 53) /\
  parse_token_count ("13" ++ "K") = Some (int_of_digits "13" * Dict.get_default multipliers "K" 1).
Proof.
  split; [split; [discriminate|split; [reflexivity|split; [simpl; auto|vm_compute; discriminate]]]|].
  apply (parse_token_count_exact "13" "K");
    [discriminate|reflexivity|simpl; auto|vm_compute; discriminate].
Defined.

(** X13 ([parse_token_count]): on a non-empty string of digits and dots,
    [float()] raises [ValueError] (the parse fails) exactly when the
    string has no digit or has two or more dots. *)
Theorem parse_token_count_value_error s :
  s <> EmptyString -> any_char (fun c => negb (is_num_char c)) s = false ->
  (parse_token_count s = None <->
   any_char is_digit s = false \/ (2 <= count_char "."%char s)%nat).
Proof.
  intros Hne Hs.
  pose proof (parse_num_unit s EmptyString Hne Hs ltac:(simpl; auto)) as H0.
  rewrite append_empty_r in H0; rewrite H0.
  unfold float_of_numeral.
  destruct (any_char is_digit s).
  - unfold Api.decimal_float.
    pose proof (digits_none s 0 1 false Hs) as Hn.
    change (if false then 1 else 0)%nat with 0%nat in Hn; rewrite Nat.add_0_r in Hn.
    destruct (Api.digits_value 0 1 false s).
    + split; [discriminate|].
      intros [H|H]; [discriminate|]; apply Hn in H; discriminate.
    + split; [intros _; right; apply Hn; reflexivity|reflexivity].
  - split; [intros _; left; reflexivity|reflexivity].
Qed.

Lemma parse_token_count_value_error_witness :
  ("1.2.3" <> EmptyString /\ any_char (fun c => negb (is_num_char c)) "1.2.3" = false) /\
  (parse_token_count "1.2.3" = None <->
   any_char is_digit "1.2.3" = false \/ (2 <= count_char "."%char "1.2.3")%nat).
Proof.
  split; [split; [discriminate|reflexivity]|].
  apply (parse_token_count_value_error "1.2.3"); [discriminate|reflexivity].
Defined.

(** X14 ([parse_token_count]): the count returned is never negative. *)
Theorem parse_token_count_nonneg text n :
  parse_token_count text = Some n -> 0 <= n.
Proof. exact (parse_count_nonneg text n). Qed.

Lemma parse_token_count_nonneg_witness :
  parse_token_count "13.4K" = Some 13400 /\ 0 <= 13400.
Proof.
  assert (H : parse_token_count "13.4K" = Some 13400) by (vm_compute; reflexivity).
  split; [exact H|exact (parse_token_count_nonneg "13.4K" 13400 H)].
Defined.

End ParseExtras.

(** ** The HTML activity fallback *)
Module HtmlFacts.
Import Regex Text ScraperPages Observe ParseNumFacts.

Lemma lit_some p : forall s r, lit p s = Some r -> s = (p ++ r)%string.
Proof.
  induction p as [|a p IH]; intros s r H; simpl in *; [congruence|].
  destruct s as [|b s]; [discriminate|].
  destruct (Ascii.eqb_spec a b) as [->|]; [|discriminate].
  now rewrite (IH s r H).
Qed.

Lemma lazy_dotall_some {A} (k : string -> option A) s x :
  lazy_dotall k s = Some x -> exists pre rest, s = (pre ++ rest)%string /\ k rest = Some x.
Proof.
  induction s as [|c s IH]; simpl; intros H.
  - destruct (k EmptyString) eqn:E; [|discriminate].
    exists EmptyString, EmptyString; split; [reflexivity|congruence].
  - destruct (k (String c s)) eqn:E.
    + exists EmptyString, (String c s); split; [reflexivity|congruence].
    + destruct (IH H) as (pre & rest & -> & Hk).
      exists (String c pre), rest; split; [reflexivity|exact Hk].
Qed.

Definition aria (label : string) : string :=
  ("aria-label=" ++ String dq label ++ String dq EmptyString)%string.

(** No label attribute: the field keeps its 0. *)
Lemma label_tokens_absent html label :
  ~ occurs (aria label) html -> label_tokens html label = Some 0.
Proof.
  intros Hno; unfold label_tokens.
  destruct (lazy_dotall (label_pat label) html) as [g|] eqn:E; [|reflexivity].
  exfalso; apply Hno.
  destruct (lazy_dotall_some _ _ _ E) as (pre & rest & -> & Hk).
  unfold label_pat, obind in Hk.
  destruct (lit _ rest) as [r|] eqn:El; [|discriminate].
  apply lit_some in El; subst rest.
  exists pre, r; reflexivity.
Qed.

Lemma label_tokens_nonneg html label n : label_tokens html label = Some n -> 0 <= n.
Proof.
  unfold label_tokens; destruct (lazy_dotall _ _).
  - apply parse_count_nonneg.
  - intros H; injection H as <-; lia.
Qed.

End HtmlFacts.

Module HtmlExtras.
Import Regex Text ScraperPages Observe HtmlFacts.

(** X15 ([_scrape_model_activity_html]): when the fallback returns, the
    cached-token and request counts are 0, every count is non-negative,
    and a token type whose [aria-label="..."] attribute does not occur in
    the page gets 0. *)
Theorem scrape_model_activity_html_fields html a :
  _scrape_model_activity_html html = Some a ->
  Activity.cached_tokens a = 0 /\ Activity.request_count a = 0 /\
  0 <= Activity.prompt_tokens a /\ 0 <= Activity.completion_tokens a /\
  0 <= Activity.reasoning_tokens a /\
  (~ occurs (aria "Prompt") html -> Activity.prompt_tokens a = 0) /\
  (~ occurs (aria "Completion") html -> Activity.completion_tokens a = 0) /\
  (~ occurs (aria "Reasoning") html -> Activity.reasoning_tokens a = 0).
Proof.
  unfold _scrape_model_activity_html, obind.
  destruct (label_tokens html "Prompt") as [p|] eqn:Ep; [|discriminate].
  destruct (label_tokens html "Completion") as [c|] eqn:Ec; [|discriminate].
  destruct (label_tokens html "Reasoning") as [r|] eqn:Er; [|discriminate].
  intros H; injection H as <-;
  cbn [Activity.cached_tokens Activity.request_count Activity.prompt_tokens
       Activity.completion_tokens Activity.reasoning_tokens].
  pose proof (label_tokens_nonneg _ _ _ Ep).
  pose proof (label_tokens_nonneg _ _ _ Ec).
  pose proof (label_tokens_nonneg _ _ _ Er).
  repeat split; try lia; intros Hno; apply label_tokens_absent in Hno; congruence.
Qed.

Lemma scrape_model_activity_html_fields_witness :
  _scrape_model_activity_html MoreInputs.activity_legend = Some (Activity.mk 1500 0 2000000 0 0) /\
  (Activity.cached_tokens (Activity.mk 1500 0 2000000 0 0) = 0 /\
   Activity.request_count (Activity.mk 1500 0 2000000 0 0) = 0 /\
   0 <= Activity.prompt_tokens (Activity.mk 1500 0 2000000 0 0) /\
   0 <= Activity.completion_tokens (Activity.mk 1500 0 2000000 0 0) /\
   0 <= Activity.reasoning_tokens (Activity.mk 1500 0 2000000 0 0) /\
   (~ occurs (aria "Prompt") MoreInputs.activity_legend ->
    Activity.prompt_tokens (Activity.mk 1500 0 2000000 0 0) = 0) /\
   (~ occurs (aria "Completion") MoreInputs.activity_legend ->
    Activity.completion_tokens (Activity.mk 1500 0 2000000 0 0) = 0) /\
   (~ occurs (aria "Reasoning") MoreInputs.activity_legend ->
    Activity.reasoning_tokens (Activity.mk 1500 0 2000000 0 0) = 0)).
Proof.
  assert (H : _scrape_model_activity_html MoreInputs.activity_legend
              = Some (Activity.mk 1500 0 2000000 0 0)) by (vm_compute; reflexivity).
  split; [exact H|exact (scrape_model_activity_html_fields _ _ H)].
Defined.

End HtmlExtras.

(** ** The request loops of scrape_all_model_activities and
    scrape_all_model_daily_data *)
Module ScrapeAllFacts.
Import Observe ScraperPages.

Section Loop.
Context {A : Type}.
Variable f : nat -> string -> A.
Variable delay : Q.
Variable n : nat.

Lemma loop_trace : forall models i d tr,
  (i + List.length models)%nat = n ->
  snd (scrape_all_loop f delay n i models (d, tr)) =
  tr ++ intersperse (Sleep delay) (map (fun m => Request (Calculator.Ranked.slug m)) models).
Proof.
  induction models as [|m rest IH]; intros i d tr Hn; cbn [scrape_all_loop].
  - now rewrite app_nil_r.
  - rewrite IH by (simpl in Hn; lia).
    destruct rest as [|m' rest'].
    + replace (Z.of_nat i <? Z.of_nat n - 1) with false
        by (symmetry; apply Z.ltb_ge; simpl in Hn; lia).
      simpl; now rewrite !app_nil_r.
    + replace (Z.of_nat i <? Z.of_nat n - 1) with true
        by (symmetry; apply Z.ltb_lt; simpl in Hn; lia).
      simpl; now rewrite <- !app_assoc.
Qed.

Lemma loop_get k : forall models i d tr,
  Dict.get (fst (scrape_all_loop f delay n i models (d, tr))) k =
  match last_index (fun m => String.eqb (Calculator.Ranked.slug m) k) models with
  | Some j => Some (f (i + j)%nat k)
  | None => Dict.get d k
  end.
Proof.
  induction models as [|m rest IH]; intros i d tr; cbn [scrape_all_loop last_index];
    [reflexivity|].
  rewrite IH; destruct (last_index _ rest) as [j|].
  - now rewrite Nat.add_succ_r.
  - rewrite dict_get_set.
    destruct (String.eqb_spec k (Calculator.Ranked.slug m)) as [->|Hne].
    + now rewrite String.eqb_refl, Nat.add_0_r.
    + destruct (String.eqb_spec (Calculator.Ranked.slug m) k); [congruence|reflexivity].
Qed.

Lemma loop_nodup : forall models i d tr,
  NoDup (map fst d) -> NoDup (map fst (fst (scrape_all_loop f delay n i models (d, tr)))).
Proof.
  induction models as [|m rest IH]; intros i d tr Hd; cbn [scrape_all_loop]; [exact Hd|].
  apply IH, DailyFacts.set_nodup, Hd.
Qed.

End Loop.

End ScrapeAllFacts.

Module ScrapeAllExtras.
Import Observe ScraperPages ScrapeAllFacts.

(** X16 ([scrape_all_model_activities], [scrape_all_model_daily_data]):
    both loops request the model pages in ranking order, one request per
    ranked model, with one sleep of [delay] between two consecutive
    requests and none after the last. *)
Theorem scrape_all_request_trace scrape_model_activity get rankings delay :
  snd (scrape_all_model_activities scrape_model_activity rankings delay)
    = intersperse (Sleep delay) (map (fun m => Request (Calculator.Ranked.slug m)) rankings) /\
  snd (scrape_all_model_daily_data get rankings delay)
    = intersperse (Sleep delay) (map (fun m => Request (Calculator.Ranked.slug m)) rankings).
Proof.
  unfold scrape_all_model_activities, scrape_all_model_daily_data, scrape_all.
  split; apply loop_trace; reflexivity.
Qed.

(** X17 ([scrape_all_model_activities], [scrape_all_model_daily_data]):
    the returned dict has no repeated slug; a slug is a key exactly when
    some ranked model has it, and its value is the result of the call for
    the last ranked model with that slug (for the daily data: the dates
    extracted from that call's response, or nothing when the request
    failed). *)
Theorem scrape_all_results scrape_model_activity get rankings delay k :
  NoDup (map fst (fst (scrape_all_model_activities scrape_model_activity rankings delay))) /\
  Dict.get (fst (scrape_all_model_activities scrape_model_activity rankings delay)) k
    = option_map (fun i => scrape_model_activity i k)
        (last_index (fun m => String.eqb (Calculator.Ranked.slug m) k) rankings) /\
  NoDup (map fst (fst (scrape_all_model_daily_data get rankings delay))) /\
  Dict.get (fst (scrape_all_model_daily_data get rankings delay)) k
    = option_map (fun i => scrape_model_daily_data (get i k))
        (last_index (fun m => String.eqb (Calculator.Ranked.slug m) k) rankings).
Proof.
  unfold scrape_all_model_activities, scrape_all_model_daily_data, scrape_all.
  split; [apply loop_nodup; constructor|].
  split; [etransitivity; [apply loop_get|]; destruct (last_index _ _); reflexivity|].
  split; [apply loop_nodup; constructor|].
  etransitivity; [apply loop_get|]; destruct (last_index _ _); reflexivity.
Qed.

End ScrapeAllExtras.

(** ** Mermaid labels: sanitizing and truncating *)
Module ReadmeFacts.
Import Regex Text Readme ParseFacts HtmlFacts.

Definition specials : list ascii := [dq; "("; ")"; "["; "]"; "{"; "}"; "#"; ":"; ";"]%char.

Lemma has_char_app x s t :
  Scraper.has_char x (s ++ t) = Scraper.has_char x s || Scraper.has_char x t.
Proof. induction s as [|c s IH]; simpl; [reflexivity|now rewrite IH, orb_assoc]. Qed.

Lemma has_char_any c s : Scraper.has_char c s = any_char (fun x => Ascii.eqb x c) s.
Proof. induction s as [|x s IH]; simpl; [reflexivity|now rewrite IH]. Qed.

Lemma replace_has x c t s :
  Scraper.has_char x (replace_char c t s) = true ->
  (x <> c /\ Scraper.has_char x s = true) \/ Scraper.has_char x t = true.
Proof.
  induction s as [|y s IH]; simpl; [discriminate|].
  destruct (Ascii.eqb_spec y c) as [->|Hyc].
  - rewrite has_char_app; intros H; apply orb_true_iff in H as [H|H]; [right; exact H|].
    destruct (IH H) as [[Hx Hs]|Ht]; [left; split; [exact Hx|now rewrite Hs, orb_true_r]|right; exact Ht].
  - intros H; apply orb_true_iff in H as [H|H].
    + apply Ascii.eqb_eq in H; subst y; left; split; [exact Hyc|now rewrite Ascii.eqb_refl].
    + destruct (IH H) as [[Hx Hs]|Ht]; [left; split; [exact Hx|now rewrite Hs, orb_true_r]|right; exact Ht].
Qed.

Lemma lstrip_has x s : Scraper.has_char x (lstrip s) = true -> Scraper.has_char x s = true.
Proof.
  induction s as [|c s IH]; simpl; [discriminate|].
  destruct (py_isspace c); [intros H; now rewrite (IH H), orb_true_r|exact id].
Qed.

Lemma rstrip_has x s : Scraper.has_char x (rstrip s) = true -> Scraper.has_char x s = true.
Proof.
  induction s as [|c s IH]; [discriminate|].
  cbn [rstrip]; destruct (rstrip s) as [|c' r'].
  - destruct (py_isspace c); simpl; intros H; [discriminate H|].
    rewrite orb_false_r in H; now rewrite H.
  - intros H; change (Ascii.eqb c x || Scraper.has_char x (String c' r') = true) in H.
    change (Ascii.eqb c x || Scraper.has_char x s = true).
    apply orb_true_iff in H as [H|H]; [now rewrite H|now rewrite (IH H), orb_true_r].
Qed.

Lemma strip_has x s : Scraper.has_char x (py_strip s) = true -> Scraper.has_char x s = true.
Proof. intros H; apply lstrip_has, rstrip_has, H. Qed.

(** [strip] is idempotent. *)
Lemma lstrip_shape s :
  lstrip s = EmptyString \/ exists c r, lstrip s = String c r /\ py_isspace c = false.
Proof.
  induction s as [|c s IH]; simpl; [now left|].
  destruct (py_isspace c) eqn:E; [exact IH|right; now exists c, s].
Qed.

Lemma rstrip_cons c r : py_isspace c = false -> rstrip (String c r) = String c (rstrip r).
Proof. intros H; simpl; destruct (rstrip r); [now rewrite H|reflexivity]. Qed.

Lemma rstrip_idem s : rstrip (rstrip s) = rstrip s.
Proof.
  induction s as [|c s IH]; simpl; [reflexivity|].
  destruct (rstrip s) as [|c' r'] eqn:E.
  - destruct (py_isspace c) eqn:Ec; simpl; [reflexivity|now rewrite Ec].
  - change (match rstrip (String c' r') with
            | EmptyString => if py_isspace c then EmptyString else String c EmptyString
            | r'' => String c r''
            end = String c (String c' r')).
    now rewrite IH.
Qed.

Lemma py_strip_idem s : py_strip (py_strip s) = py_strip s.
Proof.
  unfold py_strip.
  destruct (lstrip_shape s) as [E|(c & r & E & Hc)]; rewrite E; [reflexivity|].
  rewrite (rstrip_cons c r Hc); cbn [lstrip]; rewrite Hc.
  rewrite <- (rstrip_cons c r Hc); apply rstrip_idem.
Qed.

Lemma not_special_char x : Scraper.has_char x "'" = true \/ Scraper.has_char x " -" = true ->
  ~ In x specials.
Proof.
  intros H; cbn [Scraper.has_char] in H.
  destruct H as [H|H]; repeat (apply orb_true_iff in H; destruct H as [H|H]); try discriminate H;
    apply Ascii.eqb_eq in H; subst x; vm_compute; intuition discriminate.
Qed.

Lemma sanitize_no_special text x :
  In x specials -> Scraper.has_char x (_sanitize_mermaid_label text) = false.
Proof.
  intros Hin; destruct (Scraper.has_char x _) eqn:H; [exfalso|reflexivity].
  unfold _sanitize_mermaid_label in H; apply strip_has in H.
  repeat (apply replace_has in H; destruct H as [[? H]|H];
          [|first [cbn [Scraper.has_char] in H; discriminate H
                  |exact (not_special_char x (or_introl H) Hin)
                  |exact (not_special_char x (or_intror H) Hin)]]).
  unfold specials in Hin; cbn [In] in Hin; intuition congruence.
Qed.

Lemma replace_absent c t s : Scraper.has_char c s = false -> replace_char c t s = s.
Proof. rewrite has_char_any; apply replace_char_absent. Qed.

Lemma sanitize_stripped text :
  py_strip (_sanitize_mermaid_label text) = _sanitize_mermaid_label text.
Proof. unfold _sanitize_mermaid_label; cbv zeta; apply py_strip_idem. Qed.

Lemma after_first_some sep : forall s r,
  after_first sep s = Some r -> exists pre, s = (pre ++ sep ++ r)%string.
Proof.
  induction s as [|c s IH]; intros r; simpl.
  - destruct (lit sep EmptyString) eqn:E; [|discriminate].
    intros H; injection H as <-; exists EmptyString; exact (lit_some _ _ _ E).
  - destruct (lit sep (String c s)) eqn:E.
    + intros H; injection H as <-; exists EmptyString; exact (lit_some _ _ _ E).
    + intros H; destruct (IH r H) as [pre ->]; now exists (String c pre).
Qed.

Lemma substring_length n s : String.length (substring 0 n s) = Nat.min n (String.length s).
Proof.
  revert n; induction s as [|c s IH]; intros [|n]; simpl; try reflexivity.
  now rewrite IH.
Qed.

Lemma substring_has x n s :
  Scraper.has_char x (substring 0 n s) = true -> Scraper.has_char x s = true.
Proof.
  revert n; induction s as [|c s IH]; intros [|n]; simpl; try discriminate; try exact id.
  intros H; apply orb_true_iff in H as [H|H]; [now rewrite H|now rewrite (IH n H), orb_true_r].
Qed.

End ReadmeFacts.

Module ReadmeExtras.
Import Regex Text Readme ReadmeFacts.

(** X18 ([_sanitize_mermaid_label]): the sanitized label contains none of
    the characters it removes or replaces (the double quote, round,
    square and curly brackets, #, colon and semicolon), has no leading or trailing
    whitespace, and sanitizing it again leaves it unchanged. *)
Theorem sanitize_mermaid_label_clean text :
  (forall x, In x specials -> Scraper.has_char x (_sanitize_mermaid_label text) = false) /\
  py_strip (_sanitize_mermaid_label text) = _sanitize_mermaid_label text /\
  _sanitize_mermaid_label (_sanitize_mermaid_label text) = _sanitize_mermaid_label text.
Proof.
  split; [intros x; apply sanitize_no_special|].
  split; [apply sanitize_stripped|].
  pose proof (sanitize_no_special text) as Hs.
  pose proof (sanitize_stripped text) as Hp.
  set (out := _sanitize_mermaid_label text) in *.
  unfold _sanitize_mermaid_label; cbv zeta.
  rewrite (replace_absent dq "'" out) by (apply Hs; unfold specials; simpl; tauto).
  rewrite (replace_absent "(" EmptyString out) by (apply Hs; unfold specials; simpl; tauto).
  rewrite (replace_absent ")" EmptyString out) by (apply Hs; unfold specials; simpl; tauto).
  rewrite (replace_absent "[" EmptyString out) by (apply Hs; unfold specials; simpl; tauto).
  rewrite (replace_absent "]" EmptyString out) by (apply Hs; unfold specials; simpl; tauto).
  rewrite (replace_absent "{" EmptyString out) by (apply Hs; unfold specials; simpl; tauto).
  rewrite (replace_absent "}" EmptyString out) by (apply Hs; unfold specials; simpl; tauto).
  rewrite (replace_absent "#" EmptyString out) by (apply Hs; unfold specials; simpl; tauto).
  rewrite (replace_absent ":" " -" out) by (apply Hs; unfold specials; simpl; tauto).
  rewrite (replace_absent ";" EmptyString out) by (apply Hs; unfold specials; simpl; tauto).
  exact Hp.
Qed.

Lemma length_app_s s t : String.length (s ++ t) = (String.length s + String.length t)%nat.
Proof. induction s as [|c s IH]; simpl; [reflexivity|now rewrite IH]. Qed.

(** X19 ([_truncate_label]): for a maximum length of at least 2, the
    label returned is at most that long and contains none of the
    characters the sanitizer removes. *)
Theorem truncate_label_bounded text max_len :
  2 <= max_len ->
  Z.of_nat (String.length (_truncate_label text max_len)) <= max_len /\
  (forall x, In x specials -> Scraper.has_char x (_truncate_label text max_len) = false).
Proof.
  intros Hm; unfold _truncate_label; cbv zeta.
  pose proof (sanitize_no_special text) as H0.
  set (t0 := _sanitize_mermaid_label text) in *.
  assert (H1 : forall x, In x specials ->
            Scraper.has_char x (match after_first " - " t0 with Some r => r | None => t0 end) = false).
  { intros x Hx; destruct (after_first " - " t0) as [r|] eqn:E; [|exact (H0 x Hx)].
    destruct (after_first_some _ _ _ E) as [pre Hpre].
    specialize (H0 x Hx); rewrite Hpre, !has_char_app in H0.
    apply orb_false_iff in H0 as [_ H0]; apply orb_false_iff in H0 as [_ H0]; exact H0. }
  set (t1 := match after_first " - " t0 with Some r => r | None => t0 end) in *.
  destruct (Z.of_nat (String.length t1) >? max_len) eqn:E.
  - rewrite Z.gtb_ltb, Z.ltb_lt in E.
    unfold slice_to.
    replace (max_len - 2 >=? 0) with true by (symmetry; rewrite Z.geb_leb; apply Z.leb_le; lia).
    split.
    + rewrite length_app_s, substring_length, Nat.min_l by lia.
      change (String.length "..") with 2%nat; lia.
    + intros x Hx; rewrite has_char_app; apply orb_false_iff; split.
      * destruct (Scraper.has_char x (substring 0 _ t1)) eqn:Hs; [|reflexivity].
        apply substring_has in Hs; rewrite (H1 x Hx) in Hs; discriminate.
      * unfold specials in Hx; cbn [In] in Hx.
        repeat (destruct Hx as [<-|Hx]; [vm_compute; reflexivity|]); destruct Hx.
  - rewrite Z.gtb_ltb, Z.ltb_ge in E; split; [exact E|exact H1].
Qed.

Lemma truncate_label_bounded_witness :
  2 <= 20 /\
  (Z.of_nat (String.length (_truncate_label "Anthropic: Claude Sonnet 4.5 Extended" 20)) <= 20 /\
   (forall x, In x specials ->
      Scraper.has_char x (_truncate_label "Anthropic: Claude Sonnet 4.5 Extended" 20) = false)).
Proof.
  split; [lia|].
  apply (truncate_label_bounded "Anthropic: Claude Sonnet 4.5 Extended" 20); lia.
Defined.

(** X20 ([format_tokens], [_format_tokens]): counts from 999950 to 999999
    are shown as 1000.0K, not as 1.0M: the K branch is taken below one
    million and the quotient rounds up at one decimal. *)
Theorem format_tokens_thousand_k count :
  999950 <= count < 1000000 ->
  format_tokens count = "1000.0K" /\ CalculatorFormat._format_tokens count = "1000.0K".
Proof.
  intros Hc.
  assert (Hall : forallb (fun i => String.eqb (format_tokens (999950 + Z.of_nat i)) "1000.0K" &&
                                   String.eqb (CalculatorFormat._format_tokens (999950 + Z.of_nat i))
                                     "1000.0K")
                   (seq 0 50) = true) by (vm_compute; reflexivity).
  rewrite forallb_forall in Hall.
  specialize (Hall (Z.to_nat (count - 999950)) ltac:(apply in_seq; lia)).
  replace (999950 + Z.of_nat (Z.to_nat (count - 999950))) with count in Hall by lia.
  apply andb_true_iff in Hall as [H1 H2]; apply String.eqb_eq in H1, H2; auto.
Qed.

Lemma format_tokens_thousand_k_witness :
  (999950 <= 999950 < 1000000) /\
  (format_tokens 999950 = "1000.0K" /\ CalculatorFormat._format_tokens 999950 = "1000.0K").
Proof. split; [lia|apply (format_tokens_thousand_k 999950); lia]. Defined.

End ReadmeExtras.
